(** * epub_rag_ingestor: a shallow embedding of [EPUBProcessor]

    The development follows [src/epub_rag_ingestor.py].  Python strings are
    [string]s, Python lists are [list]s, the loop index of [enumerate] is a
    [nat], an embedding is a list of floats.  Code that raises is run in a
    small exception-and-state monad whose state (the database server, the
    connection object held in [self.conn], the log) survives a raise, as it
    does in Python.  The collaborators that live outside the repository
    (the directory listing, the EPUB reader, the text splitter, the embedding
    model, the database server's verdict on a statement) are the fields of
    an environment record. *)

From Stdlib Require Import List String Ascii Bool Arith ZArith Lia.
From Stdlib Require Import DecimalString Floats.
From Stdlib Require DecimalNat.
Import ListNotations.

Local Open Scope string_scope.
Local Open Scope list_scope.

(** ** Python built-ins used by the source *)

Module Py.

(** [str(i)] for a non-negative [int]. *)
Definition str (i : nat) : string := NilZero.string_of_uint (Nat.to_uint i).

(** [zip(xs, ys)]: stops at the end of the shorter argument. *)
Fixpoint zip {A B : Type} (xs : list A) (ys : list B) : list (A * B) :=
  match xs, ys with
  | x :: xs', y :: ys' => (x, y) :: zip xs' ys'
  | _, _ => []
  end.

(** [enumerate(xs, start)]. *)
Fixpoint enumerate_from {A : Type} (start : nat) (xs : list A) : list (nat * A) :=
  match xs with
  | [] => []
  | x :: xs' => (start, x) :: enumerate_from (S start) xs'
  end.

Definition enumerate {A : Type} (xs : list A) : list (nat * A) :=
  enumerate_from 0 xs.

(** Characters are code points below 256; [str.isspace] on that range. *)
Definition isspace (c : ascii) : bool :=
  let n := nat_of_ascii c in
  (((9 <=? n) && (n <=? 13)) || ((28 <=? n) && (n <=? 32))
   || (n =? 133) || (n =? 160))%nat.

Fixpoint lstrip (s : string) : string :=
  match s with
  | String c s' => if isspace c then lstrip s' else s
  | EmptyString => EmptyString
  end.

(** [rstrip]: a character stays when it is not a space or when something
    stays after it. *)
Fixpoint rstrip (s : string) : string :=
  match s with
  | String c s' =>
      match rstrip s' with
      | EmptyString => if isspace c then EmptyString else String c EmptyString
      | r => String c r
      end
  | EmptyString => EmptyString
  end.

(** [s.strip()]. *)
Definition strip (s : string) : string := rstrip (lstrip s).


(** Truth value of a string: non-empty. *)
Definition truthy (s : string) : bool :=
  match s with
  | EmptyString => false
  | String _ _ => true
  end.

(** [sep.join(parts)]. *)
Fixpoint join (sep : string) (parts : list string) : string :=
  match parts with
  | [] => ""
  | [p] => p
  | p :: rest => p ++ sep ++ join sep rest
  end.

Fixpoint rev_string (s acc : string) : string :=
  match s with
  | EmptyString => acc
  | String c s' => rev_string s' (String c acc)
  end.

(** [s.endswith(suffix)]. *)
Definition endswith (s suffix : string) : bool :=
  prefix (rev_string suffix "") (rev_string s "").

(** [s.rfind(c)] for a one-character needle: the last index of [c] in [s],
    [-1] when there is none. *)
Fixpoint rfind_from (c : ascii) (s : string) (i : Z) (found : Z) : Z :=
  match s with
  | EmptyString => found
  | String d s' => rfind_from c s' (i + 1) (if Ascii.eqb c d then i else found)
  end.

Definition rfind (c : ascii) (s : string) : Z := rfind_from c s 0 (-1).

(** [s[:n]] and [s[n:]] for [0 <= n]. *)
Fixpoint take (n : nat) (s : string) : string :=
  match n, s with
  | S n', String c s' => String c (take n' s')
  | _, _ => EmptyString
  end.

Fixpoint drop (n : nat) (s : string) : string :=
  match n, s with
  | S n', String _ s' => drop n' s'
  | _, _ => s
  end.

End Py.

(** ** [os.path] (POSIX) *)

Module OsPath.

(** [os.path.join(a, b)] for two components. *)
Definition join (a b : string) : string :=
  if prefix "/" b then b
  else if Py.truthy a && negb (Py.endswith a "/") then a ++ "/" ++ b
  else a ++ b.

(** Is there a character other than [.] among the characters of [s] at the
    indices [lo <= i < hi]?  (The loop of [genericpath._splitext] that skips
    the leading dots of the file name.) *)
Fixpoint has_non_dot (s : string) (i lo hi : Z) : bool :=
  match s with
  | EmptyString => false
  | String c s' =>
      ((lo <=? i)%Z && (i <? hi)%Z && negb (Ascii.eqb c "."))
      || has_non_dot s' (i + 1)%Z lo hi
  end.

(** [os.path.splitext(p)]. *)
Definition splitext (p : string) : string * string :=
  let sepIndex := Py.rfind "/" p in
  let dotIndex := Py.rfind "." p in
  if (sepIndex <? dotIndex)%Z && has_non_dot p 0 (sepIndex + 1) dotIndex
  then (Py.take (Z.to_nat dotIndex) p, Py.drop (Z.to_nat dotIndex) p)
  else (p, "").

End OsPath.

(** ** Records and the table [epub_chunks] *)

(** The dictionary built at lines 124-130, one per chunk. *)
Record Record_ : Type := mkRecord {
  chunk_id : string;
  content : string;
  book_title : string;
  chunk_num : nat;
  embedding : list float
}.

(** The body of the inner loop of [process_directory] (lines 123-131): the
    records appended to [all_records] for one book. *)
Definition build_records (title : string) (chunks : list string)
    (embeddings : list (list float)) : list Record_ :=
  map (fun '(i, (chunk, emb)) =>
         {| chunk_id := title ++ "_chunk_" ++ Py.str i;
            content := chunk;
            book_title := title;
            chunk_num := i;
            embedding := emb |})
      (Py.enumerate (Py.zip chunks embeddings)).

Definition Table : Type := list Record_.

Module Sql.

Definition has_key (k : string) (t : Table) : bool :=
  existsb (fun row => String.eqb (chunk_id row) k) t.

(** [DO UPDATE SET content = EXCLUDED.content, book_title = ...,
    chunk_num = ..., embedding = ...] on the conflicting row. *)
Definition do_update (row excluded : Record_) : Record_ :=
  {| chunk_id := chunk_id row;
     content := content excluded;
     book_title := book_title excluded;
     chunk_num := chunk_num excluded;
     embedding := embedding excluded |}.

(** [INSERT INTO epub_chunks ... ON CONFLICT (chunk_id) DO UPDATE SET ...]
    (lines 143-152), one statement. *)
Definition upsert (r : Record_) (t : Table) : Table :=
  if has_key (chunk_id r) t
  then map (fun row => if String.eqb (chunk_id row) (chunk_id r)
                       then do_update row r else row) t
  else t ++ [r].

(** What the column types of the table (lines 68-74) demand of a row:
    [embedding VECTOR(384)] and [chunk_num INTEGER]. *)
Definition schema_accepts (r : Record_) : bool :=
  (List.length (embedding r) =? 384)%nat && (Z.of_nat (chunk_num r) <=? 2147483647)%Z.

(** [chunk_id TEXT PRIMARY KEY]: no two rows share a [chunk_id]. *)
Definition primary_key (t : Table) : Prop := NoDup (map chunk_id t).

(** The statements of a batch, in order, on the rows [t]. *)
Definition upsert_all (rs : list Record_) (t : Table) : Table :=
  fold_left (fun acc r => upsert r acc) rs t.

(** The rows of [t] whose [chunk_id] is [k]. *)
Definition rows_with (k : string) (t : Table) : list Record_ :=
  filter (fun row => String.eqb (chunk_id row) k) t.

End Sql.

(** ** Exceptions, the log, the world *)

Record exception : Type := Exc { exc_class : string; exc_msg : string }.

Inductive LogRecord : Type :=
| INFO (msg : string)
| ERROR (msg : string).

(** A [psycopg2] connection: the rows as the open transaction sees them
    ([None] outside a transaction) and whether [close()] was called. *)
Record Connection : Type := mkConnection {
  pending : option Table;
  closed : bool
}.

(** An open connection with no transaction in progress. *)
Definition idle : Connection := mkConnection None false.

(** What a run can change: the committed rows of [epub_chunks] on the
    server (a table that does not exist yet has no rows), the attribute
    [self.conn] ([None] while it is not set), how many times
    [psycopg2.connect] has returned a connection, and the log. *)
Record World : Type := mkWorld {
  server : Table;
  conn : option Connection;
  connects : nat;
  log : list LogRecord
}.

Definition M (A : Type) : Type := World -> (exception + A) * World.

Definition ret {A : Type} (a : A) : M A := fun w => (inr a, w).

Definition raise {A : Type} (e : exception) : M A := fun w => (inl e, w).

Definition bind {A B : Type} (m : M A) (k : A -> M B) : M B :=
  fun w => match m w with
           | (inr a, w') => k a w'
           | (inl e, w') => (inl e, w')
           end.

(** [try: m  except Exception as e: h e]. *)
Definition try_except {A : Type} (m : M A) (h : exception -> M A) : M A :=
  fun w => match m w with
           | (inr a, w') => (inr a, w')
           | (inl e, w') => h e w'
           end.

(** A call of a collaborator that returns or raises and touches nothing. *)
Definition call {A : Type} (r : exception + A) : M A :=
  match r with
  | inr a => ret a
  | inl e => raise e
  end.

Declare Scope py_scope.
Delimit Scope py_scope with py.
Notation "x <- m ;; k" := (bind m (fun x => k))
  (at level 61, m at next level, right associativity) : py_scope.
Notation "m ;; k" := (bind m (fun _ => k))
  (at level 61, right associativity) : py_scope.
Local Open Scope py_scope.

Definition logger_info (msg : string) : M unit :=
  fun w => (inr tt, mkWorld (server w) (conn w) (connects w) (log w ++ [INFO msg])).

Definition logger_error (msg : string) : M unit :=
  fun w => (inr tt, mkWorld (server w) (conn w) (connects w) (log w ++ [ERROR msg])).

(** The world [w] with the records [l] added to the log. *)
Definition logged (w : World) (l : list LogRecord) : World :=
  mkWorld (server w) (conn w) (connects w) (log w ++ l).

(** *** The connection object *)

Module Psycopg2.

Definition InterfaceError : exception :=
  Exc "InterfaceError" "connection already closed".

Definition AttributeError : exception :=
  Exc "AttributeError" "'EPUBProcessor' object has no attribute 'conn'".

Definition set_conn (c : Connection) : M unit :=
  fun w => (inr tt, mkWorld (server w) (Some c) (connects w) (log w)).

(** [self.conn], for a method that is going to use it: the attribute must
    be there and the connection open. *)
Definition open_conn : M Connection :=
  fun w => match conn w with
           | None => (inl AttributeError, w)
           | Some c => if closed c then (inl InterfaceError, w) else (inr c, w)
           end.

(** The rows the connection sees: those of its transaction when one is
    open, the committed ones otherwise. *)
Definition view (c : Connection) (w : World) : Table :=
  match pending c with
  | Some t => t
  | None => server w
  end.

(** [cursor.execute(insert_query, record)]: the statement runs in the
    connection's transaction (begun by the first statement).  The server
    refuses a row the schema does not accept, and may fail for a reason
    of its own ([fault]). *)
Definition execute_upsert (fault : Table -> Record_ -> option exception)
    (r : Record_) : M unit :=
  c <- open_conn ;;
  fun w =>
    let t := view c w in
    if negb (Sql.schema_accepts r)
    then (inl (Exc "DataError" (chunk_id r)), w)
    else match fault t r with
         | Some e => (inl e, w)
         | None => set_conn (mkConnection (Some (Sql.upsert r t)) false) w
         end.

(** [execute_batch(cursor, insert_query, data, page_size=100)]: the
    statements of [data] in order; a page is only a network round trip. *)
Fixpoint execute_batch (fault : Table -> Record_ -> option exception)
    (data : list Record_) : M unit :=
  match data with
  | [] => ret tt
  | r :: rest => execute_upsert fault r ;; execute_batch fault rest
  end.

(** The first statement of a batch that is refused when the batch runs on
    the rows [t], if there is one. *)
Fixpoint first_refusal (fault : Table -> Record_ -> option exception)
    (data : list Record_) (t : Table) : option exception :=
  match data with
  | [] => None
  | r :: rest =>
      if negb (Sql.schema_accepts r) then Some (Exc "DataError" (chunk_id r))
      else match fault t r with
           | Some e => Some e
           | None => first_refusal fault rest (Sql.upsert r t)
           end
  end.

(** A DDL statement that changes no row ([CREATE EXTENSION IF NOT EXISTS],
    [CREATE TABLE IF NOT EXISTS]). *)
Definition execute_ddl (fault : option exception) : M unit :=
  c <- open_conn ;;
  fun w =>
    match fault with
    | Some e => (inl e, w)
    | None => set_conn (mkConnection (Some (view c w)) false) w
    end.

(** [with self.conn.cursor() as cursor]: a cursor of an open connection. *)
Definition cursor : M unit := open_conn ;; ret tt.

(** [self.conn.commit()]. *)
Definition commit : M unit :=
  c <- open_conn ;;
  fun w => (inr tt, mkWorld (view c w) (Some (mkConnection None false))
                            (connects w) (log w)).

(** [self.conn.rollback()]. *)
Definition rollback : M unit :=
  c <- open_conn ;;
  set_conn (mkConnection None false).

(** [self.conn.close()]: the open transaction is discarded. *)
Definition close : M unit :=
  fun w => match conn w with
           | None => (inl AttributeError, w)
           | Some c => set_conn (mkConnection None true) w
           end.

End Psycopg2.

(** ** The environment: the collaborators outside the repository *)

(** An item of a book: whether [item.get_type() == ebooklib.ITEM_DOCUMENT],
    and what [BeautifulSoup(item.get_content(), 'html.parser').get_text()]
    returns or raises. *)
Record Item : Type := mkItem {
  is_document : bool;
  get_text : exception + string
}.

Record DbConfig : Type := mkDbConfig {
  dbname : string;
  user : string;
  password : string;
  host : string;
  port : string
}.

Definition Splitter : Type := string -> list string.
Definition Encoder : Type := list string -> exception + list (list float).

Record Env : Type := mkEnv {
  (** [os.listdir] *)
  listdir : string -> exception + list string;
  (** [epub.read_epub] followed by [book.get_items()] *)
  read_epub : string -> exception + list Item;
  (** [RecursiveCharacterTextSplitter(chunk_size=, chunk_overlap=,
      length_function=len)] and its [split_text] *)
  RecursiveCharacterTextSplitter : Z -> Z -> exception + Splitter;
  (** [SentenceTransformer(name)] and its [encode] *)
  SentenceTransformer : string -> exception + Encoder;
  (** [psycopg2.connect]: [None] when it returns a connection *)
  connect : DbConfig -> option exception;
  (** a failure of the schema statements, if any *)
  ddl_fault : option exception;
  (** a failure of an insert statement other than a schema violation *)
  insert_fault : Table -> Record_ -> option exception
}.

(** ** [class EPUBProcessor] *)

(** The attributes set by [__init__] that never change afterwards;
    [self.conn] is in the [World]. *)
Record Processor : Type := mkProcessor {
  input_dir : string;
  db_config : DbConfig;
  chunk_size : Z;
  chunk_overlap : Z;
  text_splitter : Splitter;
  embedding_model : Encoder
}.

Section EPUBProcessor.

Variable E : Env.

(** [_connect_to_db] (lines 43-57); the caller stores the result in
    [self.conn]. *)
Definition _connect_to_db (cfg : DbConfig) : M Connection :=
  try_except
    (fun w => match connect E cfg with
              | Some e => (inl e, w)
              | None =>
                  (inr (mkConnection None false),
                   mkWorld (server w) (conn w) (S (connects w))
                           (log w ++ [INFO "Successfully connected to PostgreSQL database"]))
              end)
    (fun e =>
       logger_error ("Failed to connect to database: " ++ exc_msg e) ;;
       raise e).

(** [_setup_database] (lines 59-82). *)
Definition _setup_database : M unit :=
  try_except
    (Psycopg2.cursor ;;
     Psycopg2.execute_ddl (ddl_fault E) ;;
     Psycopg2.execute_ddl (ddl_fault E) ;;
     Psycopg2.commit ;;
     logger_info "Database schema initialized")
    (fun e =>
       logger_error ("Database setup failed: " ++ exc_msg e) ;;
       Psycopg2.rollback ;;
       raise e).

(** [__init__] (lines 18-41). *)
Definition __init__ (dir : string) (cfg : DbConfig)
    (size overlap : Z) : M Processor :=
  splitter <- call (RecursiveCharacterTextSplitter E size overlap) ;;
  model <- call (SentenceTransformer E "all-MiniLM-L6-v2") ;;
  c <- _connect_to_db cfg ;;
  Psycopg2.set_conn c ;;
  _setup_database ;;
  ret (mkProcessor dir cfg size overlap splitter model).

(** The loop of lines 90-95: the texts appended to [chapters]. *)
Fixpoint chapters_of (items : list Item) (chapters : list string)
  : exception + list string :=
  match items with
  | [] => inr chapters
  | item :: rest =>
      if is_document item then
        match get_text item with
        | inl e => inl e
        | inr text =>
            if Py.truthy (Py.strip text)
            then chapters_of rest (chapters ++ [text])
            else chapters_of rest chapters
        end
      else chapters_of rest chapters
  end.

(** [extract_text_from_epub] (lines 84-100). *)
Definition extract_text_from_epub (epub_path : string) : M string :=
  try_except
    (items <- call (read_epub E epub_path) ;;
     chapters <- call (chapters_of items []) ;;
     ret (Py.join " " chapters))
    (fun e =>
       logger_error ("Failed to extract text from " ++ epub_path ++ ": " ++ exc_msg e) ;;
       ret "").

(** The loop of lines 107-131 over [epub_files], threading [all_records]. *)
Fixpoint for_epub_files (self : Processor) (epub_files : list string)
    (all_records : list Record_) : M (list Record_) :=
  match epub_files with
  | [] => ret all_records
  | epub_file :: rest =>
      let epub_path := OsPath.join (input_dir self) epub_file in
      let title := fst (OsPath.splitext epub_file) in
      full_text <- extract_text_from_epub epub_path ;;
      if negb (Py.truthy full_text) then for_epub_files self rest all_records
      else
        let chunks := text_splitter self full_text in
        embeddings <- call (embedding_model self chunks) ;;
        for_epub_files self rest
          (all_records ++ build_records title chunks embeddings)
  end.

(** [_save_to_postgres] (lines 138-172). *)
Definition _save_to_postgres (records : list Record_) : M unit :=
  try_except
    (Psycopg2.cursor ;;
     Psycopg2.execute_batch (insert_fault E) records ;;
     Psycopg2.commit ;;
     logger_info ("Successfully saved " ++ Py.str (List.length records)
                  ++ " records to database"))
    (fun e =>
       logger_error ("Failed to save to database: " ++ exc_msg e) ;;
       Psycopg2.rollback ;;
       raise e).

(** [process_directory] (lines 102-136). *)
Definition process_directory (self : Processor) : M nat :=
  entries <- call (listdir E (input_dir self)) ;;
  let epub_files := filter (fun f => Py.endswith f ".epub") entries in
  all_records <- for_epub_files self epub_files [] ;;
  _save_to_postgres all_records ;;
  logger_info ("Processed " ++ Py.str (List.length all_records) ++ " chunks from "
               ++ Py.str (List.length epub_files) ++ " EPUBs") ;;
  ret (List.length all_records).

(** [__del__] (lines 174-178): the finalizer, run by the interpreter when
    the object is destroyed. *)
Definition __del__ : M unit :=
  fun w => match conn w with
           | Some _ =>
               (Psycopg2.close ;; logger_info "Database connection closed") w
           | None => (inr tt, w)
           end.

(** The body of the [try] of the script (lines 193-194). *)
Definition main (dir : string) (cfg : DbConfig) : M nat :=
  processor <- __init__ dir cfg 512 64 ;;
  process_directory processor.

End EPUBProcessor.

(** ** The Chunker of the specification *)

Module Chunker.

Definition InvalidConfiguration : exception :=
  Exc "InvalidConfiguration" "chunk size and overlap".

(** Modelled from the spec: the preconditions of section 4.1,
    [chunk_size > 0] and [0 <= overlap < chunk_size]; the check itself is
    in the langchain constructor, which is not among the sources. *)
Definition valid (chunk_size overlap : Z) : bool :=
  ((0 <? chunk_size) && (0 <=? overlap) && (overlap <? chunk_size))%Z.

(** Modelled from the spec: [RecursiveCharacterTextSplitter.split_text] is
    code of the langchain package and is not among the sources.  Section 4.1
    of the specification: the windows lie over the text so that each window
    after the first begins [chunk_size - overlap] characters past the start
    of the previous one; the final window may be shorter than [chunk_size]
    and ends where the input ends; an input no longer than [chunk_size] is
    one chunk.  These are the hard character cuts, the policy on a text that
    offers no natural boundary.  [fuel] bounds the number of windows. *)
Fixpoint windows (fuel chunk_size overlap : nat) (text : string) : list string :=
  match fuel with
  | O => []
  | S fuel' =>
      if (String.length text <=? chunk_size)%nat then [text]
      else Py.take chunk_size text
           :: windows fuel' chunk_size overlap (Py.drop (chunk_size - overlap) text)
  end.

(** Modelled from the spec: the body of [split] of section 4.1 under a
    valid configuration, in place of the langchain splitter that is not
    among the sources: no chunk for an empty or whitespace-only text,
    otherwise the windows over the trimmed text. *)
Definition chunks_of (text : string) (chunk_size overlap : Z) : list string :=
  let t := Py.strip text in
  if Py.truthy t
  then windows (String.length t) (Z.to_nat chunk_size) (Z.to_nat overlap) t
  else [].

(** Modelled from the spec: [split(text, chunk_size, overlap)] of section
    4.1, in place of the langchain splitter that is not among the sources.
    A violated precondition fails with [InvalidConfiguration]; an empty or
    whitespace-only input yields the empty sequence; otherwise the windows
    over the trimmed text. *)
Definition split (text : string) (chunk_size overlap : Z) : exception + list string :=
  if valid chunk_size overlap then inr (chunks_of text chunk_size overlap)
  else inl InvalidConfiguration.

(** Modelled from the spec: the constructor of the splitter, which is code
    of the langchain package and is not among the sources.  It checks the
    preconditions of section 4.1 once, for every later [split_text]. *)
Definition new (chunk_size overlap : Z) : exception + Splitter :=
  if valid chunk_size overlap
  then inr (fun text => chunks_of text chunk_size overlap)
  else inl InvalidConfiguration.

(** [ceil(a / b)] for [b > 0]. *)
Definition ceil_div (a b : Z) : Z := (- ((- a) / b))%Z.

End Chunker.

(** ** A small library, for running the definitions *)

Module Demo.

Definition vec : list float := repeat 0.5%float 384.

(** A splitter that cuts after the fourth character. *)
Definition splitter : Splitter := fun text => [Py.take 4 text; Py.drop 4 text].

(** An encoder that returns one vector per chunk. *)
Definition encoder : Encoder := fun chunks => inr (map (fun _ => vec) chunks).

(** An encoder that returns a vector for the first chunk only. *)
Definition short_encoder : Encoder :=
  fun chunks => inr (map (fun _ => vec) (firstn 1 chunks)).

(** An encoder that raises on a batch that starts with ["Boom"]. *)
Definition failing_encoder : Encoder :=
  fun chunks =>
    match chunks with
    | "Boom" :: _ => inl (Exc "RuntimeError" "out of memory")
    | _ => inr (map (fun _ => vec) chunks)
    end.

Definition books (path : string) : exception + list Item :=
  if String.eqb path "books/Foo.epub"
  then inr [mkItem false (inr "cover"); mkItem true (inr "Hello"); mkItem true (inr "world")]
  else if String.eqb path "books/Boom.epub"
  then inr [mkItem true (inr "Boom box")]
  else if String.eqb path "books/Blank.epub"
  then inr [mkItem true (inr "   "); mkItem true (inr "")]
  else inl (Exc "BadZipFile" "File is not a zip file").

Definition env (entries : list string) (enc : Encoder) : Env :=
  {| listdir := fun _ => inr entries;
     read_epub := books;
     RecursiveCharacterTextSplitter := fun _ _ => inr splitter;
     SentenceTransformer := fun _ => inr enc;
     connect := fun _ => None;
     ddl_fault := None;
     insert_fault := fun _ _ => None |}.

(** The same library with the splitter of the specification. *)
Definition spec_env (entries : list string) (enc : Encoder) : Env :=
  {| listdir := fun _ => inr entries;
     read_epub := books;
     RecursiveCharacterTextSplitter := Chunker.new;
     SentenceTransformer := fun _ => inr enc;
     connect := fun _ => None;
     ddl_fault := None;
     insert_fault := fun _ _ => None |}.

Definition cfg : DbConfig := mkDbConfig "rag_db" "postgres" "postgres" "localhost" "5432".

Definition processor (enc : Encoder) : Processor :=
  mkProcessor "books" cfg 512 64 splitter enc.

(** Before [__init__]: no connection, an empty table, an empty log. *)
Definition fresh : World := mkWorld [] None 0 [].

(** After [__init__]: [self.conn] is an open connection with no
    transaction in progress. *)
Definition ready : World := mkWorld [] (Some (mkConnection None false)) 1 [].


Definition record (id text : string) (dim : nat) : Record_ :=
  mkRecord id text "Foo" 0 (repeat 0.5%float dim).

End Demo.

(** ** The script (lines 180-197) *)

(** [os.getenv(key, default)] over the process environment [environ]. *)
Definition os_getenv (environ : string -> option string)
    (key default : string) : string :=
  match environ key with
  | Some value => value
  | None => default
  end.

(** The dictionary [db_config] of lines 182-188. *)
Definition script_db_config (environ : string -> option string) : DbConfig :=
  {| dbname := os_getenv environ "DB_NAME" "rag_db";
     user := os_getenv environ "DB_USER" "postgres";
     password := os_getenv environ "DB_PASSWORD" "postgres";
     host := os_getenv environ "DB_HOST" "localhost";
     port := os_getenv environ "DB_PORT" "5432" |}.

(** The [try] statement of lines 192-197; the value is the line that is
    printed. *)
Definition script (E : Env) (environ : string -> option string) : M string :=
  try_except
    (total_chunks <- main E "path/to/epubs" (script_db_config environ) ;;
     ret ("Successfully processed and stored " ++ Py.str total_chunks
          ++ " chunks in PostgreSQL")%string)
    (fun e => ret ("An error occurred: " ++ exc_msg e)%string).

(** ** Notions used in the statements *)

Module Text.

(** A decimal digit. *)
Definition isdigit (c : ascii) : bool :=
  let n := nat_of_ascii c in ((48 <=? n) && (n <=? 57))%nat.

Fixpoint all_digits (s : string) : bool :=
  match s with
  | EmptyString => true
  | String c s' => isdigit c && all_digits s'
  end.

(** [c in s]. *)
Fixpoint mem (c : ascii) (s : string) : bool :=
  match s with
  | EmptyString => false
  | String d s' => Ascii.eqb c d || mem c s'
  end.

(** Every character of [s] is [c]. *)
Fixpoint all_char (c : ascii) (s : string) : bool :=
  match s with
  | EmptyString => true
  | String d s' => Ascii.eqb d c && all_char c s'
  end.

(** [s[-1]], when [s] is not empty. *)
Fixpoint last_char (s : string) : option ascii :=
  match s with
  | EmptyString => None
  | String c EmptyString => Some c
  | String _ s' => last_char s'
  end.

End Text.

(** The titles given to the files of a listing (line 109). *)
Definition titles (epub_files : list string) : list string :=
  map (fun f => fst (OsPath.splitext f)) epub_files.

(** The texts of a book that end up in [chapters] when no item raises:
    those of the document items that are not blank, in the order of the
    items. *)
Definition kept_texts (items : list Item) : list string :=
  flat_map (fun item =>
              if is_document item then
                match get_text item with
                | inr text => if Py.truthy (Py.strip text) then [text] else []
                | inl _ => []
                end
              else []) items.

(** * Properties *)

Local Open Scope py_scope.

Example demo_run :
  fst (process_directory (Demo.env ["Foo.epub"; "notes.txt"] Demo.encoder)
         (Demo.processor Demo.encoder) Demo.ready) = inr 2%nat.
Proof. vm_compute. reflexivity. Qed.

Example demo_rows :
  map chunk_id (server (snd (process_directory (Demo.env ["Foo.epub"; "notes.txt"] Demo.encoder)
         (Demo.processor Demo.encoder) Demo.ready))) = ["Foo_chunk_0"; "Foo_chunk_1"].
Proof. vm_compute. reflexivity. Qed.

Example demo_init :
  snd (__init__ (Demo.env [] Demo.encoder) "books" Demo.cfg 512 64 Demo.fresh)
  = mkWorld [] (Some (mkConnection None false)) 1
      [INFO "Successfully connected to PostgreSQL database";
       INFO "Database schema initialized"].
Proof. vm_compute. reflexivity. Qed.

Example chunker_abc : Chunker.split "abcdefghij" 4 1 = inr ["abcd"; "defg"; "ghij"].
Proof. vm_compute. reflexivity. Qed.
Example str_0 : Py.str 0 = "0". Proof. reflexivity. Qed.
Example str_1234 : Py.str 1234 = "1234". Proof. reflexivity. Qed.
Example splitext_Foo : OsPath.splitext "Foo.epub" = ("Foo", ".epub").
Proof. reflexivity. Qed.
Example splitext_dot : OsPath.splitext ".epub" = (".epub", "").
Proof. reflexivity. Qed.
Example splitext_two : OsPath.splitext "a.b.epub" = ("a.b", ".epub").
Proof. reflexivity. Qed.
Example join_dir : OsPath.join "books" "Foo.epub" = "books/Foo.epub".
Proof. reflexivity. Qed.
Example strip_1 : Py.strip "  a b  " = "a b". Proof. reflexivity. Qed.
Example endswith_1 : Py.endswith "Foo.epub" ".epub" = true. Proof. reflexivity. Qed.
Example endswith_2 : Py.endswith "epub" ".epub" = false. Proof. reflexivity. Qed.

(** ** The records of one book *)

Section RecordBuilder.

Lemma zip_length {A B : Type} (xs : list A) (ys : list B) :
  List.length (Py.zip xs ys) = Nat.min (List.length xs) (List.length ys).
Proof.
  revert ys; induction xs as [|x xs IH]; intros [|y ys]; simpl; auto.
Qed.

Lemma zip_nth_error {A B : Type} (xs : list A) (ys : list B) (i : nat) x y :
  nth_error xs i = Some x -> nth_error ys i = Some y ->
  nth_error (Py.zip xs ys) i = Some (x, y).
Proof.
  revert ys i; induction xs as [|x0 xs IH]; intros [|y0 ys] [|i]; simpl;
    try discriminate.
  - intros [= ->] [= ->]; reflexivity.
  - apply IH.
Qed.

Lemma enumerate_from_length {A : Type} (start : nat) (xs : list A) :
  List.length (Py.enumerate_from start xs) = List.length xs.
Proof.
  revert start; induction xs as [|x xs IH]; intros start; simpl; auto.
Qed.

Lemma enumerate_from_nth_error {A : Type} (start : nat) (xs : list A) (i : nat) x :
  nth_error xs i = Some x ->
  nth_error (Py.enumerate_from start xs) i = Some (start + i, x).
Proof.
  revert start i; induction xs as [|x0 xs IH]; intros start [|i]; simpl;
    try discriminate.
  - intros [= ->]; rewrite Nat.add_0_r; reflexivity.
  - intros H; rewrite (IH (S start) i H); f_equal; f_equal; lia.
Qed.

Lemma build_records_length title chunks embeddings :
  List.length (build_records title chunks embeddings)
  = Nat.min (List.length chunks) (List.length embeddings).
Proof.
  unfold build_records, Py.enumerate.
  rewrite length_map, enumerate_from_length; apply zip_length.
Qed.

Lemma build_records_nth_error title chunks embeddings i chunk emb :
  nth_error chunks i = Some chunk ->
  nth_error embeddings i = Some emb ->
  nth_error (build_records title chunks embeddings) i
  = Some (mkRecord (title ++ "_chunk_" ++ Py.str i)%string chunk title i emb).
Proof.
  intros Hc He. unfold build_records, Py.enumerate.
  rewrite nth_error_map,
    (enumerate_from_nth_error 0 _ i _ (zip_nth_error _ _ _ _ _ Hc He)).
  reflexivity.
Qed.

End RecordBuilder.

(** C1.  For every title [t] and every position [i] that has a chunk and a
    vector, the record built for that position has [chunk_id] equal to
    [t ++ "_chunk_" ++ str(i)]: the identifier is a function of the title
    and the position alone, whatever the chunk's text and vector are. *)
Theorem chunk_id_derivation :
  forall (t : string) (chunks : list string) (embeddings : list (list float))
         (i : nat),
    (i < List.length chunks)%nat ->
    (i < List.length embeddings)%nat ->
    exists r,
      nth_error (build_records t chunks embeddings) i = Some r /\
      chunk_id r = (t ++ "_chunk_" ++ Py.str i)%string.
Proof.
  intros t chunks embeddings i Hc He.
  destruct (nth_error chunks i) as [chunk|] eqn:Ec;
    [|apply nth_error_None in Ec; lia].
  destruct (nth_error embeddings i) as [emb|] eqn:Ee;
    [|apply nth_error_None in Ee; lia].
  eexists; split.
  - apply (build_records_nth_error t _ _ _ _ _ Ec Ee).
  - reflexivity.
Qed.

Lemma chunk_id_derivation_Foo_3 :
  exists r,
    nth_error (build_records "Foo" ["a"; "b"; "c"; "d"; "e"]
                 (repeat Demo.vec 5)) 3 = Some r /\
    chunk_id r = "Foo_chunk_3".
Proof.
  apply (chunk_id_derivation "Foo" ["a"; "b"; "c"; "d"; "e"] (repeat Demo.vec 5) 3);
    simpl; lia.
Defined.

(** C3, as the code has it.  The records of a book are built from
    [zip(chunks, embeddings)]: there are [min(n, m)] of them for [n] chunks
    and [m] vectors (so [n] when the lengths agree), and the record at
    position [i] holds the [i]-th chunk, the [i]-th vector and
    [chunk_num = i].  A difference in length raises nothing: the longer
    sequence is cut to the shorter. *)
Theorem records_aligned_by_zip :
  forall (t : string) (chunks : list string) (embeddings : list (list float)),
    List.length (build_records t chunks embeddings)
    = Nat.min (List.length chunks) (List.length embeddings) /\
    (List.length chunks = List.length embeddings ->
     List.length (build_records t chunks embeddings) = List.length chunks) /\
    (forall i chunk emb,
        nth_error chunks i = Some chunk ->
        nth_error embeddings i = Some emb ->
        exists r,
          nth_error (build_records t chunks embeddings) i = Some r /\
          content r = chunk /\ embedding r = emb /\ chunk_num r = i /\
          book_title r = t).
Proof.
  intros t chunks embeddings. split; [|split].
  - apply build_records_length.
  - intros H. rewrite build_records_length, H. apply Nat.min_id.
  - intros i chunk emb Hc He. eexists. split.
    + apply (build_records_nth_error t _ _ _ _ _ Hc He).
    + simpl. auto.
Qed.

(** Five chunks and five vectors give five records, aligned. *)
Lemma records_aligned_by_zip_witness :
  let chunks := ["a"; "b"; "c"; "d"; "e"] in
  let embeddings := [[1%float]; [2%float]; [3%float]; [4%float]; [5%float]] in
  List.length (build_records "Foo" chunks embeddings) = 5%nat /\
  exists r,
    nth_error (build_records "Foo" chunks embeddings) 3 = Some r /\
    content r = "d" /\ embedding r = [4%float] /\ chunk_num r = 3%nat /\
    book_title r = "Foo".
Proof.
  intros chunks embeddings.
  destruct (records_aligned_by_zip "Foo" chunks embeddings) as [_ [Hn Hi]].
  split.
  - apply Hn. reflexivity.
  - apply (Hi 3%nat "d" [4%float]); reflexivity.
Defined.

(** C3, the claim as stated fails: two chunks and one vector are a length
    mismatch, and the run returns normally with one record, nothing
    raised. *)
Lemma mismatch_is_truncated_silently :
  let chunks := Demo.splitter "Hello world" in
  let run := process_directory (Demo.env ["Foo.epub"] Demo.short_encoder)
               (Demo.processor Demo.short_encoder) Demo.ready in
  List.length chunks = 2%nat /\
  option_map (@List.length _) (match Demo.short_encoder chunks with
                               | inr vs => Some vs | inl _ => None end) = Some 1%nat /\
  fst run = inr 1%nat /\
  map content (server (snd run)) = ["Hell"].
Proof. vm_compute. repeat split. Qed.

(** ** The table and its primary key *)

Section Table.

Lemma do_update_same row r :
  chunk_id row = chunk_id r -> Sql.do_update row r = r.
Proof. destruct r; unfold Sql.do_update; simpl; intros ->; reflexivity. Qed.

Lemma has_key_In k t : Sql.has_key k t = true <-> In k (map chunk_id t).
Proof.
  unfold Sql.has_key. rewrite existsb_exists, in_map_iff. split.
  - intros [row [Hin Heq]]. apply String.eqb_eq in Heq. eauto.
  - intros [row [Heq Hin]]. exists row. split; auto. now apply String.eqb_eq.
Qed.

Lemma has_key_false k t : Sql.has_key k t = false <-> ~ In k (map chunk_id t).
Proof.
  rewrite <- has_key_In. destruct (Sql.has_key k t); split; congruence.
Qed.

(** A statement changes the keys of the table by at most one, at the end. *)
Lemma upsert_keys r t :
  map chunk_id (Sql.upsert r t)
  = if Sql.has_key (chunk_id r) t then map chunk_id t
    else map chunk_id t ++ [chunk_id r].
Proof.
  unfold Sql.upsert. destruct (Sql.has_key (chunk_id r) t).
  - rewrite map_map. apply map_ext. intros row.
    destruct (String.eqb (chunk_id row) (chunk_id r)); reflexivity.
  - rewrite map_app. reflexivity.
Qed.

Lemma upsert_primary_key r t :
  Sql.primary_key t -> Sql.primary_key (Sql.upsert r t).
Proof.
  unfold Sql.primary_key. intros Hnd. rewrite upsert_keys.
  destruct (Sql.has_key (chunk_id r) t) eqn:Hk; auto.
  apply has_key_false in Hk.
  apply NoDup_rev in Hnd. rewrite <- (rev_involutive (_ ++ _)).
  apply NoDup_rev. rewrite rev_app_distr. simpl. constructor; auto.
  now rewrite <- in_rev.
Qed.

Lemma upsert_all_primary_key rs t :
  Sql.primary_key t -> Sql.primary_key (Sql.upsert_all rs t).
Proof.
  revert t; induction rs as [|r rs IH]; intros t H; simpl; auto.
  apply IH, upsert_primary_key, H.
Qed.

Lemma upsert_all_app rs1 rs2 t :
  Sql.upsert_all (rs1 ++ rs2) t = Sql.upsert_all rs2 (Sql.upsert_all rs1 t).
Proof. apply fold_left_app. Qed.

Lemma rows_with_absent k t :
  ~ In k (map chunk_id t) -> Sql.rows_with k t = [].
Proof.
  induction t as [|row t IH]; simpl; auto.
  intros H. destruct (String.eqb_spec (chunk_id row) k) as [Heq|Hne].
  - exfalso; apply H; now left.
  - apply IH. intros Hin; apply H; now right.
Qed.

(** Under the primary key a key that is present has exactly one row. *)
Lemma rows_with_present k t :
  Sql.primary_key t -> In k (map chunk_id t) ->
  exists row, Sql.rows_with k t = [row].
Proof.
  unfold Sql.primary_key. induction t as [|row t IH]; simpl; [tauto|].
  intros Hnd Hin. inversion Hnd as [|? ? Hnot Hnd']; subst.
  destruct (String.eqb_spec (chunk_id row) k) as [Heq|Hne].
  - exists row. subst k. now rewrite rows_with_absent.
  - destruct Hin as [Heq|Hin]; [contradiction|]. now apply IH.
Qed.

Lemma rows_with_map_update k r t :
  chunk_id r = k ->
  Sql.rows_with k
    (map (fun row => if String.eqb (chunk_id row) (chunk_id r)
                     then Sql.do_update row r else row) t)
  = map (fun _ => r) (Sql.rows_with k t).
Proof.
  intros <-. induction t as [|row t IH]; simpl; auto.
  destruct (String.eqb_spec (chunk_id row) (chunk_id r)) as [Heq|Hne].
  - rewrite (do_update_same _ _ Heq), String.eqb_refl. simpl. now rewrite IH.
  - destruct (String.eqb_spec (chunk_id row) (chunk_id r)); [contradiction|].
    apply IH.
Qed.

(** After a statement the table has exactly one row with the statement's
    key, and it is the statement's record. *)
Lemma upsert_rows_with_same r t :
  Sql.primary_key t -> Sql.rows_with (chunk_id r) (Sql.upsert r t) = [r].
Proof.
  intros Hpk. unfold Sql.upsert.
  destruct (Sql.has_key (chunk_id r) t) eqn:Hk.
  - rewrite rows_with_map_update by reflexivity.
    apply has_key_In in Hk.
    destruct (rows_with_present _ _ Hpk Hk) as [row ->]. reflexivity.
  - apply has_key_false in Hk. unfold Sql.rows_with.
    rewrite filter_app. fold (Sql.rows_with (chunk_id r) t).
    rewrite (rows_with_absent _ _ Hk). simpl. now rewrite String.eqb_refl.
Qed.

(** A statement leaves the rows of every other key alone. *)
Lemma upsert_rows_with_other k r t :
  chunk_id r <> k -> Sql.rows_with k (Sql.upsert r t) = Sql.rows_with k t.
Proof.
  intros Hne. unfold Sql.upsert. destruct (Sql.has_key (chunk_id r) t).
  - induction t as [|row t IH]; simpl; auto.
    destruct (String.eqb_spec (chunk_id row) (chunk_id r)) as [Heq|Hne'].
    + simpl. rewrite Heq.
      destruct (String.eqb_spec (chunk_id r) k); [contradiction|]. apply IH.
    + fold (Sql.rows_with k t).
      destruct (String.eqb (chunk_id row) k); [f_equal|]; apply IH.
  - unfold Sql.rows_with. rewrite filter_app. simpl.
    destruct (String.eqb_spec (chunk_id r) k); [contradiction|].
    apply app_nil_r.
Qed.

Lemma upsert_all_rows_with_other k rs t :
  ~ In k (map chunk_id rs) ->
  Sql.rows_with k (Sql.upsert_all rs t) = Sql.rows_with k t.
Proof.
  revert t; induction rs as [|r rs IH]; intros t H; simpl; auto.
  rewrite IH by (intros Hin; apply H; now right).
  apply upsert_rows_with_other. intros Heq; apply H; now left.
Qed.

(** The last record of a batch with a given key is the one row the table
    has for that key afterwards. *)
Lemma upsert_all_rows_with_last pre r post t :
  Sql.primary_key t ->
  ~ In (chunk_id r) (map chunk_id post) ->
  Sql.rows_with (chunk_id r) (Sql.upsert_all (pre ++ r :: post) t) = [r].
Proof.
  intros Hpk Hpost. rewrite upsert_all_app. simpl.
  rewrite upsert_all_rows_with_other by assumption.
  apply upsert_rows_with_same, upsert_all_primary_key, Hpk.
Qed.

(** The keys after a batch depend on the keys before and the keys of the
    batch only. *)
Lemma upsert_all_keys_ext rs1 rs2 t1 t2 :
  map chunk_id rs1 = map chunk_id rs2 ->
  map chunk_id t1 = map chunk_id t2 ->
  map chunk_id (Sql.upsert_all rs1 t1) = map chunk_id (Sql.upsert_all rs2 t2).
Proof.
  revert rs2 t1 t2; induction rs1 as [|r1 rs1 IH]; intros [|r2 rs2] t1 t2;
    simpl; try discriminate; auto.
  intros [= Hk Hrs] Ht. apply IH; auto.
  rewrite !upsert_keys, Hk, Ht.
  replace (Sql.has_key (chunk_id r2) t1) with (Sql.has_key (chunk_id r2) t2);
    [reflexivity|].
  destruct (Sql.has_key (chunk_id r2) t2) eqn:H2.
  - symmetry. apply has_key_In. rewrite Ht. now apply has_key_In.
  - symmetry. apply has_key_false. rewrite Ht. now apply has_key_false.
Qed.

Lemma upsert_all_keys_incl rs t k :
  In k (map chunk_id t) -> In k (map chunk_id (Sql.upsert_all rs t)).
Proof.
  revert t; induction rs as [|r rs IH]; intros t H; simpl; auto.
  apply IH. rewrite upsert_keys.
  destruct (Sql.has_key (chunk_id r) t); auto. apply in_or_app; now left.
Qed.

Lemma upsert_all_keys_present rs t :
  (forall k, In k (map chunk_id rs) -> In k (map chunk_id t)) ->
  map chunk_id (Sql.upsert_all rs t) = map chunk_id t.
Proof.
  revert t; induction rs as [|r rs IH]; intros t H; simpl; auto.
  assert (Hr : Sql.has_key (chunk_id r) t = true)
    by (apply has_key_In, H; now left).
  rewrite IH.
  - now rewrite upsert_keys, Hr.
  - intros k Hk. rewrite upsert_keys, Hr. apply H. now right.
Qed.

Lemma upsert_all_keys_batch rs t k :
  In k (map chunk_id rs) -> In k (map chunk_id (Sql.upsert_all rs t)).
Proof.
  revert t; induction rs as [|r rs IH]; intros t; simpl; [tauto|].
  intros [<-|Hin]; [|now apply IH].
  apply upsert_all_keys_incl. rewrite upsert_keys.
  destruct (Sql.has_key (chunk_id r) t) eqn:Hk.
  - now apply has_key_In.
  - apply in_or_app; right; now left.
Qed.

(** Running a batch with the same keys again adds no key and no row. *)
Lemma upsert_all_again_keys rs rs' t :
  map chunk_id rs' = map chunk_id rs ->
  map chunk_id (Sql.upsert_all rs' (Sql.upsert_all rs t))
  = map chunk_id (Sql.upsert_all rs t).
Proof.
  intros H. apply upsert_all_keys_present. intros k Hk.
  rewrite H in Hk. now apply upsert_all_keys_batch.
Qed.

End Table.

(** ** The connection and the transaction of [_save_to_postgres] *)

Section Transaction.

Variable E : Env.

Lemma world_eta w c :
  conn w = Some c -> mkWorld (server w) (Some c) (connects w) (log w) = w.
Proof. destruct w; simpl; intros ->; reflexivity. Qed.

Lemma open_conn_ok w c :
  conn w = Some c -> closed c = false -> Psycopg2.open_conn w = (inr c, w).
Proof. unfold Psycopg2.open_conn. intros -> ->. reflexivity. Qed.

Lemma cursor_ok w c :
  conn w = Some c -> closed c = false -> Psycopg2.cursor w = (inr tt, w).
Proof.
  intros Hc Ho. unfold Psycopg2.cursor, bind.
  now rewrite (open_conn_ok w c Hc Ho).
Qed.

Lemma commit_ok w c :
  conn w = Some c -> closed c = false ->
  Psycopg2.commit w
  = (inr tt, mkWorld (Psycopg2.view c w) (Some (mkConnection None false))
                     (connects w) (log w)).
Proof.
  intros Hc Ho. unfold Psycopg2.commit, bind.
  now rewrite (open_conn_ok w c Hc Ho).
Qed.

Lemma rollback_ok w c :
  conn w = Some c -> closed c = false ->
  Psycopg2.rollback w
  = (inr tt, mkWorld (server w) (Some (mkConnection None false))
                     (connects w) (log w)).
Proof.
  intros Hc Ho. unfold Psycopg2.rollback, bind.
  now rewrite (open_conn_ok w c Hc Ho).
Qed.

Lemma bind_run {A B : Type} (m : M A) (k : A -> M B) w :
  bind m k w = match m w with
               | (inr a, w') => k a w'
               | (inl e, w') => (inl e, w')
               end.
Proof. reflexivity. Qed.

Lemma execute_upsert_run fault r w c :
  conn w = Some c -> closed c = false ->
  Psycopg2.execute_upsert fault r w
  = if Sql.schema_accepts r
    then match fault (Psycopg2.view c w) r with
         | Some e => (inl e, w)
         | None =>
             (inr tt,
              mkWorld (server w)
                (Some (mkConnection (Some (Sql.upsert r (Psycopg2.view c w))) false))
                (connects w) (log w))
         end
    else (inl (Exc "DataError" (chunk_id r)), w).
Proof.
  intros Hc Ho. unfold Psycopg2.execute_upsert.
  rewrite bind_run, (open_conn_ok w c Hc Ho).
  destruct (Sql.schema_accepts r); reflexivity.
Qed.

(** The statements of a batch run inside the connection's transaction:
    they change what the connection sees and nothing else, and they stop
    at the first refusal. *)
Lemma execute_batch_spec fault data :
  forall w c,
    conn w = Some c -> closed c = false ->
    exists c',
      closed c' = false /\
      match Psycopg2.first_refusal fault data (Psycopg2.view c w) with
      | None =>
          Psycopg2.execute_batch fault data w
          = (inr tt, mkWorld (server w) (Some c') (connects w) (log w)) /\
          Psycopg2.view c' w = Sql.upsert_all data (Psycopg2.view c w)
      | Some e =>
          Psycopg2.execute_batch fault data w
          = (inl e, mkWorld (server w) (Some c') (connects w) (log w))
      end.
Proof.
  induction data as [|r rest IH]; intros w c Hc Ho; simpl.
  - exists c. rewrite (world_eta w c Hc). auto.
  - rewrite !bind_run, (execute_upsert_run fault r w c Hc Ho).
    destruct (Sql.schema_accepts r); simpl.
    + destruct (fault (Psycopg2.view c w) r) as [e|] eqn:Hf.
      * exists c. rewrite (world_eta w c Hc). auto.
      * set (c1 := mkConnection (Some (Sql.upsert r (Psycopg2.view c w))) false).
        set (w1 := mkWorld (server w) (Some c1) (connects w) (log w)).
        destruct (IH w1 c1 eq_refl eq_refl) as [c' [Ho' H]].
        exists c'. split; [exact Ho'|exact H].
    + exists c. rewrite (world_eta w c Hc). auto.
Qed.

(** What [_save_to_postgres] does to the world, on an open connection:
    either every statement was accepted and the whole batch is committed,
    or the first refusal is raised again after a rollback. *)
Lemma _save_to_postgres_spec records w c :
  conn w = Some c -> closed c = false ->
  _save_to_postgres E records w
  = match Psycopg2.first_refusal (insert_fault E) records (Psycopg2.view c w) with
    | None =>
        (inr tt,
         mkWorld (Sql.upsert_all records (Psycopg2.view c w))
                 (Some (mkConnection None false)) (connects w)
                 (log w ++ [INFO ("Successfully saved "
                                  ++ Py.str (List.length records)
                                  ++ " records to database")]))
    | Some e =>
        (inl e,
         mkWorld (server w) (Some (mkConnection None false)) (connects w)
                 (log w ++ [ERROR ("Failed to save to database: " ++ exc_msg e)]))
    end.
Proof.
  intros Hc Ho.
  destruct (execute_batch_spec (insert_fault E) records w c Hc Ho)
    as [c' [Ho' H]].
  unfold _save_to_postgres, try_except.
  rewrite bind_run, (cursor_ok w c Hc Ho). cbv beta iota. rewrite bind_run.
  destruct (Psycopg2.first_refusal (insert_fault E) records (Psycopg2.view c w))
    as [e|].
  - rewrite H. cbv beta iota. rewrite bind_run. unfold logger_error at 1.
    cbv beta iota. rewrite bind_run, (rollback_ok (mkWorld _ (Some c') _ _) c' eq_refl Ho').
    reflexivity.
  - destruct H as [H1 H2]. rewrite H1. cbv beta iota.
    rewrite bind_run, (commit_ok (mkWorld _ (Some c') _ _) c' eq_refl Ho'). unfold logger_info.
    cbn [fst snd server conn connects log]. rewrite <- H2.
    destruct c' as [[?|] ?]; reflexivity.
Qed.

End Transaction.

(** C8.  On an open connection [_save_to_postgres] is all or nothing.  When
    the server refuses a statement of the batch, the call raises that
    refusal, the transaction is rolled back, and the committed rows are
    those from before the call, whatever the statements before the refused
    one did; nothing of the batch is committed.  Rows change only when every
    statement was accepted, and then the whole batch is committed. *)
Theorem batch_is_all_or_nothing :
  forall (E : Env) (records : list Record_) (w : World) (c : Connection),
    conn w = Some c -> closed c = false ->
    let out := _save_to_postgres E records w in
    let refusal :=
      Psycopg2.first_refusal (insert_fault E) records (Psycopg2.view c w) in
    (forall e, refusal = Some e ->
       fst out = inl e /\ server (snd out) = server w) /\
    (forall e, fst out = inl e -> server (snd out) = server w) /\
    (fst out = inr tt ->
       refusal = None /\
       server (snd out) = Sql.upsert_all records (Psycopg2.view c w)) /\
    conn (snd out) = Some (mkConnection None false).
Proof.
  intros E records w c Hc Ho out refusal. subst out refusal.
  rewrite (_save_to_postgres_spec E records w c Hc Ho).
  destruct (Psycopg2.first_refusal (insert_fault E) records (Psycopg2.view c w))
    as [e0|]; simpl; repeat split; intros; auto; try discriminate; congruence.
Qed.

(** A batch of three records whose second has a vector of the wrong
    dimension: the first statement runs, the second is refused, and the
    table that held one row before the call holds that row after it. *)
Lemma batch_is_all_or_nothing_witness :
  let E := Demo.env [] Demo.encoder in
  let old := Demo.record "Old_chunk_0" "old" 384 in
  let batch := [Demo.record "Foo_chunk_0" "a" 384;
                Demo.record "Foo_chunk_1" "b" 3;
                Demo.record "Foo_chunk_2" "c" 384] in
  let w := mkWorld [old] (Some (mkConnection None false)) 1 [] in
  let out := _save_to_postgres E batch w in
  fst out = inl (Exc "DataError" "Foo_chunk_1") /\ server (snd out) = [old].
Proof.
  intros E old batch w out.
  destruct (batch_is_all_or_nothing E batch w (mkConnection None false)
              eq_refl eq_refl) as [H _].
  apply (H (Exc "DataError" "Foo_chunk_1")).
  vm_compute. reflexivity.
Defined.

(** ** Blank texts *)

Section Strip.







Lemma truthy_false s : Py.truthy s = false <-> s = "".
Proof. destruct s; simpl; split; congruence. Qed.

End Strip.

(** ** Extraction and the loop over the books *)

Section Loop.

Variable E : Env.

Lemma logged_nil w : logged w [] = w.
Proof. destruct w; unfold logged; simpl. now rewrite app_nil_r. Qed.

Lemma logged_app w l1 l2 : logged (logged w l1) l2 = logged w (l1 ++ l2).
Proof. unfold logged; simpl. now rewrite app_assoc. Qed.


(** [extract_text_from_epub] never raises: a failure is logged and the
    text is empty. *)
Lemma extract_text_from_epub_run epub_path w :
  extract_text_from_epub E epub_path w
  = match read_epub E epub_path with
    | inl e =>
        (inr "", logged w [ERROR ("Failed to extract text from " ++ epub_path
                                  ++ ": " ++ exc_msg e)])
    | inr items =>
        match chapters_of items [] with
        | inl e =>
            (inr "", logged w [ERROR ("Failed to extract text from " ++ epub_path
                                      ++ ": " ++ exc_msg e)])
        | inr chapters => (inr (Py.join " " chapters), w)
        end
    end.
Proof.
  unfold extract_text_from_epub, try_except. rewrite bind_run.
  destruct (read_epub E epub_path) as [e|items]; simpl; [reflexivity|].
  rewrite bind_run.
  destruct (chapters_of items []) as [e|chapters]; reflexivity.
Qed.


Lemma extract_text_from_epub_logs epub_path :
  exists text l, forall w,
    extract_text_from_epub E epub_path w = (inr text, logged w l).
Proof.
  destruct (read_epub E epub_path) as [e|items] eqn:Hr.
  - eexists. eexists. intros w.
    rewrite extract_text_from_epub_run, Hr. reflexivity.
  - destruct (chapters_of items []) as [e|chapters] eqn:Hc.
    + eexists. eexists. intros w.
      rewrite extract_text_from_epub_run, Hr, Hc. reflexivity.
    + exists (Py.join " " chapters), []. intros w.
      rewrite extract_text_from_epub_run, Hr, Hc, logged_nil. reflexivity.
Qed.

(** The loop over the books: its result does not depend on the world, and
    it leaves the server and the connection alone. *)
Lemma for_epub_files_logs self epub_files :
  forall all_records,
  exists r l, forall w,
    for_epub_files E self epub_files all_records w = (r, logged w l).
Proof.
  induction epub_files as [|f rest IH]; intros all_records.
  - exists (inr all_records), []. intros w. now rewrite logged_nil.
  - destruct (extract_text_from_epub_logs
                (OsPath.join (input_dir self) f)) as [text [l1 Hx]].
    cbn [for_epub_files].
    destruct (Py.truthy text) eqn:Ht.
    + destruct (embedding_model self (text_splitter self text))
        as [e|embeddings] eqn:He.
      * exists (inl e), l1. intros w.
        rewrite bind_run, Hx, Ht. cbn [negb]. now rewrite He.
      * destruct (IH (all_records ++ build_records (fst (OsPath.splitext f))
                        (text_splitter self text) embeddings)) as [r [l2 Hr]].
        exists r, (l1 ++ l2). intros w.
        rewrite bind_run, Hx, Ht. cbn [negb]. rewrite bind_run, He.
        cbn [call ret]. now rewrite Hr, logged_app.
    + destruct (IH all_records) as [r [l2 Hr]].
      exists r, (l1 ++ l2). intros w.
      rewrite bind_run, Hx, Ht. cbn [negb]. now rewrite Hr, logged_app.
Qed.

Lemma for_epub_files_app self pre post :
  forall all_records w,
    for_epub_files E self (pre ++ post) all_records w
    = match for_epub_files E self pre all_records w with
      | (inr records, w') => for_epub_files E self post records w'
      | (inl e, w') => (inl e, w')
      end.
Proof.
  induction pre as [|f pre IH]; intros all_records w; [reflexivity|].
  rewrite <- app_comm_cons. cbn [for_epub_files]. rewrite !bind_run.
  destruct (extract_text_from_epub E (OsPath.join (input_dir self) f) w)
    as [[e|text] w1]; [reflexivity|].
  destruct (negb (Py.truthy text)); [apply IH|].
  rewrite !bind_run.
  destruct (call (embedding_model self (text_splitter self text)) w1)
    as [[e|embeddings] w2]; [reflexivity|apply IH].
Qed.


End Loop.





Example bad_book_run :
  let out := process_directory (Demo.env ["Bad.epub"; "Foo.epub"] Demo.encoder)
               (Demo.processor Demo.encoder) Demo.ready in
  fst out = inr 2%nat /\
  map chunk_id (server (snd out)) = ["Foo_chunk_0"; "Foo_chunk_1"].
Proof. vm_compute. split; reflexivity. Qed.

(** C5, as the code has it.  When the model raises on the chunks of a
    book, [process_directory] raises that same exception: the books after
    it are not processed, [_save_to_postgres] is not reached, and the
    server and the connection are as they were before the run, so no
    record of any book of the run is stored, and no vector is made up. *)
Theorem embedding_failure_aborts_run :
  forall (E : Env) (self : Processor) (w : World)
         (entries pre post : list string) (epub_file : string)
         (records : list Record_) (w1 w2 : World) (full_text : string)
         (e : exception),
    listdir E (input_dir self) = inr entries ->
    filter (fun f => Py.endswith f ".epub") entries = pre ++ epub_file :: post ->
    for_epub_files E self pre [] w = (inr records, w1) ->
    extract_text_from_epub E (OsPath.join (input_dir self) epub_file) w1
      = (inr full_text, w2) ->
    Py.truthy full_text = true ->
    embedding_model self (text_splitter self full_text) = inl e ->
    process_directory E self w = (inl e, w2) /\
    server w2 = server w /\ conn w2 = conn w.
Proof.
  intros E self w entries pre post f records w1 w2 text e
         Hls Hfiles Hpre Hx Ht He.
  split.
  - unfold process_directory. rewrite bind_run, Hls. cbn [call ret].
    rewrite bind_run, Hfiles, for_epub_files_app, Hpre.
    cbn [for_epub_files]. rewrite bind_run, Hx, Ht. cbn [negb].
    rewrite bind_run, He. reflexivity.
  - destruct (for_epub_files_logs E self pre []) as [r [l1 H1]].
    rewrite H1 in Hpre. injection Hpre as _ <-.
    destruct (extract_text_from_epub_logs E (OsPath.join (input_dir self) f))
      as [t [l2 H2]].
    rewrite H2 in Hx. injection Hx as _ <-. split; reflexivity.
Qed.

(** The model raises on [Boom.epub], the second book of three. *)
Lemma embedding_failure_aborts_run_witness :
  let E := Demo.env ["Foo.epub"; "Boom.epub"; "Blank.epub"] Demo.failing_encoder in
  let self := Demo.processor Demo.failing_encoder in
  process_directory E self Demo.ready
    = (inl (Exc "RuntimeError" "out of memory"), Demo.ready) /\
  server Demo.ready = server Demo.ready /\ conn Demo.ready = conn Demo.ready.
Proof.
  intros E self.
  apply (embedding_failure_aborts_run E self Demo.ready
           ["Foo.epub"; "Boom.epub"; "Blank.epub"] ["Foo.epub"] ["Blank.epub"]
           "Boom.epub"
           (build_records "Foo" (Demo.splitter "Hello world")
              (repeat Demo.vec 2))
           Demo.ready Demo.ready "Boom box");
    vm_compute; reflexivity.
Defined.

(** C5, the claim as stated fails: [Foo.epub] alone is stored as two
    records, but when the model raises on [Boom.epub] before it the run
    raises instead of going on to [Foo.epub], and the table stays empty. *)
Lemma embedding_failure_is_not_skipped :
  let self := Demo.processor Demo.failing_encoder in
  let alone := process_directory (Demo.env ["Foo.epub"] Demo.failing_encoder)
                 self Demo.ready in
  let run := process_directory
               (Demo.env ["Boom.epub"; "Foo.epub"] Demo.failing_encoder)
               self Demo.ready in
  fst alone = inr 2%nat /\
  map chunk_id (server (snd alone)) = ["Foo_chunk_0"; "Foo_chunk_1"] /\
  fst run = inl (Exc "RuntimeError" "out of memory") /\
  server (snd run) = [].
Proof. vm_compute. repeat split. Qed.

(** ** Whole runs *)

Section Runs.

Variable E : Env.

(** [process_directory] on an open connection, case by case. *)
Lemma process_directory_run self w c entries r l :
  conn w = Some c -> closed c = false ->
  listdir E (input_dir self) = inr entries ->
  (forall w0,
      for_epub_files E self (filter (fun f => Py.endswith f ".epub") entries) [] w0
      = (r, logged w0 l)) ->
  process_directory E self w
  = match r with
    | inl e => (inl e, logged w l)
    | inr records =>
        match Psycopg2.first_refusal (insert_fault E) records (Psycopg2.view c w) with
        | Some e =>
            (inl e,
             mkWorld (server w) (Some idle) (connects w)
               ((log w ++ l)
                ++ [ERROR ("Failed to save to database: " ++ exc_msg e)]))
        | None =>
            (inr (List.length records),
             mkWorld (Sql.upsert_all records (Psycopg2.view c w)) (Some idle)
               (connects w)
               (((log w ++ l)
                 ++ [INFO ("Successfully saved " ++ Py.str (List.length records)
                           ++ " records to database")])
                ++ [INFO ("Processed " ++ Py.str (List.length records)
                          ++ " chunks from "
                          ++ Py.str (List.length
                                       (filter (fun f => Py.endswith f ".epub") entries))
                          ++ " EPUBs")]))
        end
    end.
Proof.
  intros Hc Ho Hls Hloop. unfold process_directory.
  rewrite bind_run, Hls. cbn [call ret]. rewrite bind_run, Hloop.
  destruct r as [e|records]; [reflexivity|].
  rewrite bind_run, (_save_to_postgres_spec E records (logged w l) c Hc Ho).
  change (Psycopg2.view c (logged w l)) with (Psycopg2.view c w).
  destruct (Psycopg2.first_refusal (insert_fault E) records (Psycopg2.view c w));
    reflexivity.
Qed.

(** [__init__] when [self.conn] is not set yet, case by case. *)
Lemma __init___run dir cfg size overlap w :
  conn w = None ->
  __init__ E dir cfg size overlap w
  = match RecursiveCharacterTextSplitter E size overlap with
    | inl e => (inl e, w)
    | inr splitter =>
        match SentenceTransformer E "all-MiniLM-L6-v2" with
        | inl e => (inl e, w)
        | inr model =>
            match connect E cfg with
            | Some e =>
                (inl e, logged w [ERROR ("Failed to connect to database: "
                                         ++ exc_msg e)])
            | None =>
                match ddl_fault E with
                | Some e =>
                    (inl e,
                     mkWorld (server w) (Some idle) (S (connects w))
                       ((log w ++ [INFO "Successfully connected to PostgreSQL database"])
                        ++ [ERROR ("Database setup failed: " ++ exc_msg e)]))
                | None =>
                    (inr (mkProcessor dir cfg size overlap splitter model),
                     mkWorld (server w) (Some idle) (S (connects w))
                       ((log w ++ [INFO "Successfully connected to PostgreSQL database"])
                        ++ [INFO "Database schema initialized"]))
                end
            end
        end
    end.
Proof.
  intros Hn. unfold __init__. rewrite bind_run.
  destruct (RecursiveCharacterTextSplitter E size overlap) as [e|splitter];
    [reflexivity|].
  cbn [call ret]. rewrite bind_run.
  destruct (SentenceTransformer E "all-MiniLM-L6-v2") as [e|model];
    [reflexivity|].
  cbn [call ret]. rewrite bind_run. unfold _connect_to_db, try_except.
  destruct (connect E cfg) as [e|]; [reflexivity|].
  unfold _setup_database, try_except, Psycopg2.execute_ddl, Psycopg2.cursor,
    Psycopg2.commit, Psycopg2.rollback, Psycopg2.open_conn, Psycopg2.set_conn,
    logger_info, logger_error, raise, ret, bind.
  cbn [conn closed server connects log Psycopg2.view pending].
  destruct (ddl_fault E) as [e|]; reflexivity.
Qed.

(** The finalizer closes whatever connection the object holds. *)
Lemma __del___run w c :
  conn w = Some c ->
  __del__ w
  = (inr tt, mkWorld (server w) (Some (mkConnection None true)) (connects w)
                     (log w ++ [INFO "Database connection closed"])).
Proof. intros H. unfold __del__. rewrite H. unfold Psycopg2.close, bind. now rewrite H. Qed.

End Runs.

(** C2.  The upsert replaces on conflict, and a second run adds nothing.
    (a) After two calls of [_save_to_postgres] that return, the table has
    exactly one row for the [chunk_id] of a record of the second batch,
    and that row is the record of the second batch (the last one of that
    batch with this key), whatever the first batch stored under the key.
    (b) When [process_directory] returns twice in a row on the same
    directory with the same splitter and model, the second run reports the
    same number of records, and the table has the same [chunk_id]s in the
    same order and the same number of rows as after the first run. *)
Theorem upsert_replaces_and_rerun_adds_nothing :
  forall E : Env,
    (forall (w w1 w2 : World) (first second pre post : list Record_)
            (r : Record_),
        conn w = Some idle ->
        Sql.primary_key (server w) ->
        _save_to_postgres E first w = (inr tt, w1) ->
        _save_to_postgres E second w1 = (inr tt, w2) ->
        second = pre ++ r :: post ->
        ~ In (chunk_id r) (map chunk_id post) ->
        Sql.rows_with (chunk_id r) (server w2) = [r]) /\
    (forall (self : Processor) (w w1 w2 : World) (n1 n2 : nat),
        conn w = Some idle ->
        process_directory E self w = (inr n1, w1) ->
        process_directory E self w1 = (inr n2, w2) ->
        n2 = n1 /\
        map chunk_id (server w2) = map chunk_id (server w1) /\
        List.length (server w2) = List.length (server w1)).
Proof.
  intros E. split.
  - intros w w1 w2 first second pre post r Hc Hpk H1 H2 -> Hlast.
    rewrite (_save_to_postgres_spec E first w idle Hc eq_refl) in H1.
    destruct (Psycopg2.first_refusal (insert_fault E) first (Psycopg2.view idle w));
      [discriminate|].
    injection H1 as <-.
    match type of H2 with
    | _save_to_postgres _ _ ?w0 = _ =>
        rewrite (_save_to_postgres_spec E _ w0 idle eq_refl eq_refl) in H2
    end.
    cbn [Psycopg2.view idle pending server] in H2.
    destruct (Psycopg2.first_refusal (insert_fault E) (pre ++ r :: post) _);
      [discriminate|].
    injection H2 as <-. cbn [server].
    apply upsert_all_rows_with_last; auto.
    now apply upsert_all_primary_key.
  - intros self w w1 w2 n1 n2 Hc H1 H2.
    destruct (listdir E (input_dir self)) as [e|entries] eqn:Hls.
    { unfold process_directory in H1. rewrite bind_run, Hls in H1.
      discriminate. }
    destruct (for_epub_files_logs E self
                (filter (fun f => Py.endswith f ".epub") entries) [])
      as [r [l Hloop]].
    rewrite (process_directory_run E self w idle entries r l Hc eq_refl Hls Hloop)
      in H1.
    destruct r as [e|records]; [discriminate|].
    cbn [Psycopg2.view idle pending] in H1.
    destruct (Psycopg2.first_refusal (insert_fault E) records (server w));
      [discriminate|].
    injection H1 as <- <-.
    match type of H2 with
    | process_directory _ _ ?w0 = _ =>
        rewrite (process_directory_run E self w0 idle entries (inr records) l
                   eq_refl eq_refl Hls Hloop) in H2
    end.
    cbn [Psycopg2.view idle pending server] in H2.
    destruct (Psycopg2.first_refusal (insert_fault E) records _);
      [discriminate|].
    injection H2 as <- <-. cbn [server].
    assert (Hk : map chunk_id (Sql.upsert_all records
                                 (Sql.upsert_all records (server w)))
                 = map chunk_id (Sql.upsert_all records (server w)))
      by (now apply upsert_all_again_keys).
    split; [reflexivity|]. split; [exact Hk|].
    rewrite <- (length_map chunk_id), Hk. apply length_map.
Qed.

(** Two calls that reuse ["Foo_chunk_0"] with another content, and two
    runs over the same directory. *)
Lemma upsert_replaces_and_rerun_adds_nothing_witness :
  let E := Demo.env ["Foo.epub"] Demo.encoder in
  let old := Demo.record "Foo_chunk_0" "first text" 384 in
  let new := Demo.record "Foo_chunk_0" "second text" 384 in
  let w1 := snd (_save_to_postgres E [old] Demo.ready) in
  let w2 := snd (_save_to_postgres E [new] w1) in
  let self := Demo.processor Demo.encoder in
  let v1 := snd (process_directory E self Demo.ready) in
  let v2 := snd (process_directory E self v1) in
  Sql.rows_with "Foo_chunk_0" (server w2) = [new] /\
  (2%nat = 2%nat /\
   map chunk_id (server v2) = map chunk_id (server v1) /\
   List.length (server v2) = List.length (server v1)).
Proof.
  intros E old new w1 w2 self v1 v2.
  destruct (upsert_replaces_and_rerun_adds_nothing E) as [Ha Hb].
  split.
  - apply (Ha Demo.ready w1 w2 [old] [new] [] [] new).
    + reflexivity.
    + constructor.
    + vm_compute. reflexivity.
    + vm_compute. reflexivity.
    + reflexivity.
    + simpl. tauto.
  - apply (Hb self Demo.ready v1 v2 2%nat 2%nat).
    + reflexivity.
    + vm_compute. reflexivity.
    + vm_compute. reflexivity.
Defined.

Example rerun_rows :
  let E := Demo.env ["Foo.epub"] Demo.encoder in
  let self := Demo.processor Demo.encoder in
  let v1 := snd (process_directory E self Demo.ready) in
  let v2 := snd (process_directory E self v1) in
  map chunk_id (server v1) = ["Foo_chunk_0"; "Foo_chunk_1"] /\
  map chunk_id (server v2) = ["Foo_chunk_0"; "Foo_chunk_1"].
Proof. vm_compute. split; reflexivity. Qed.

(** C10, as the code has it.  A run is [__init__] followed by
    [process_directory].  On every exit path, returning or raising, the
    run opens at most one connection; when it has opened one, [self.conn]
    holds it at the end of the run, open and with no transaction in
    progress: no path of the run closes it.  It is the finalizer [__del__]
    that closes it, when the interpreter destroys the object. *)
Theorem connection_is_closed_by_finalizer_only :
  forall (E : Env) (dir : string) (cfg : DbConfig) (w : World),
    conn w = None ->
    let out := main E dir cfg w in
    ((conn (snd out) = None /\ connects (snd out) = connects w) \/
     (conn (snd out) = Some idle /\ connects (snd out) = S (connects w) /\
      conn (snd (__del__ (snd out))) = Some (mkConnection None true))).
Proof.
  intros E dir cfg w Hn out. subst out. unfold main.
  rewrite bind_run, (__init___run E dir cfg 512 64 w Hn).
  destruct (RecursiveCharacterTextSplitter E 512 64) as [e|splitter];
    [left; auto|].
  destruct (SentenceTransformer E "all-MiniLM-L6-v2") as [e|model];
    [left; auto|].
  destruct (connect E cfg) as [e|]; [left; auto|].
  destruct (ddl_fault E) as [e|].
  { right. cbn [snd conn connects]. repeat split. }
  right.
  set (self := mkProcessor dir cfg 512 64 splitter model).
  set (w1 := mkWorld _ _ _ _).
  destruct (listdir E (input_dir self)) as [e|entries] eqn:Hls.
  { unfold process_directory. rewrite bind_run, Hls. cbn [call raise snd].
    subst w1. cbn [conn connects]. repeat split. }
  destruct (for_epub_files_logs E self
              (filter (fun f => Py.endswith f ".epub") entries) [])
    as [r [l Hloop]].
  rewrite (process_directory_run E self w1 idle entries r l eq_refl eq_refl
             Hls Hloop).
  destruct r as [e|records].
  { cbn [snd logged conn connects w1]. repeat split. }
  destruct (Psycopg2.first_refusal (insert_fault E) records (Psycopg2.view idle w1));
    cbn [snd conn connects w1]; repeat split.
Qed.

(** A run on which the model raises. *)
Lemma connection_is_closed_by_finalizer_only_witness :
  let E := Demo.env ["Boom.epub"] Demo.failing_encoder in
  let out := main E "books" Demo.cfg Demo.fresh in
  ((conn (snd out) = None /\ connects (snd out) = connects Demo.fresh) \/
   (conn (snd out) = Some idle /\ connects (snd out) = S (connects Demo.fresh) /\
    conn (snd (__del__ (snd out))) = Some (mkConnection None true))).
Proof.
  intros E.
  apply (connection_is_closed_by_finalizer_only E "books" Demo.cfg Demo.fresh).
  reflexivity.
Defined.

(** C10, the claim as stated fails: the model raises on [Boom.epub], the
    run ends with that exception, and the connection it opened is still
    open; so it is after a run that returns. *)
Lemma connection_is_open_when_run_ends :
  let failed := main (Demo.env ["Boom.epub"] Demo.failing_encoder)
                  "books" Demo.cfg Demo.fresh in
  let returned := main (Demo.env ["Foo.epub"] Demo.encoder)
                    "books" Demo.cfg Demo.fresh in
  fst failed = inl (Exc "RuntimeError" "out of memory") /\
  connects (snd failed) = 1%nat /\
  option_map closed (conn (snd failed)) = Some false /\
  fst returned = inr 2%nat /\
  option_map closed (conn (snd returned)) = Some false.
Proof. vm_compute. repeat split. Qed.

(** C7, on the splitter of the specification.  [__init__] builds the
    splitter before it loads the model and before it connects.  When the
    constructor checks the preconditions of section 4.1, a configuration
    with [chunk_size <= 0], [overlap < 0] or [overlap >= chunk_size] makes
    [__init__] raise [InvalidConfiguration] with the world untouched: no
    connection is opened, nothing is logged, and there is no object on
    which [process_directory] could run. *)
Theorem invalid_configuration_aborts_before_processing :
  forall (E : Env) (dir : string) (cfg : DbConfig) (size overlap : Z)
         (w : World),
    RecursiveCharacterTextSplitter E = Chunker.new ->
    (size <= 0 \/ overlap < 0 \/ size <= overlap)%Z ->
    __init__ E dir cfg size overlap w = (inl Chunker.InvalidConfiguration, w).
Proof.
  intros E dir cfg size overlap w HE Hbad.
  unfold __init__. rewrite bind_run, HE. unfold Chunker.new, Chunker.valid.
  replace ((0 <? size) && (0 <=? overlap) && (overlap <? size))%Z with false;
    [reflexivity|].
  symmetry. apply not_true_iff_false. rewrite !andb_true_iff. lia.
Qed.

Lemma invalid_configuration_aborts_before_processing_witness :
  __init__ (Demo.spec_env ["Foo.epub"] Demo.encoder) "books" Demo.cfg 64 64
    Demo.fresh
  = (inl Chunker.InvalidConfiguration, Demo.fresh).
Proof.
  apply (invalid_configuration_aborts_before_processing
           (Demo.spec_env ["Foo.epub"] Demo.encoder) "books" Demo.cfg 64 64
           Demo.fresh).
  - reflexivity.
  - lia.
Defined.

(** Whatever the constructor is, its exception leaves [__init__] before
    anything else has happened. *)
Lemma splitter_failure_aborts_before_connect E dir cfg size overlap w e :
  RecursiveCharacterTextSplitter E size overlap = inl e ->
  __init__ E dir cfg size overlap w = (inl e, w).
Proof. intros H. unfold __init__. rewrite bind_run, H. reflexivity. Qed.

(** ** The number of chunks of the specification's Chunker *)

Section ChunkCount.


Lemma take_length n s :
  String.length (Py.take n s) = Nat.min n (String.length s).
Proof.
  revert s; induction n as [|n IH]; intros [|c s]; simpl; auto.
Qed.

(** [ceil_div a b] is the least integer [q] with [a <= q * b]. *)
Lemma ceil_div_spec a b :
  (0 < b)%Z ->
  ((Chunker.ceil_div a b - 1) * b < a <= Chunker.ceil_div a b * b)%Z.
Proof.
  intros Hb. unfold Chunker.ceil_div.
  pose proof (Z.div_mod (- a) b ltac:(lia)) as Hd.
  pose proof (Z.mod_pos_bound (- a) b Hb) as Hm.
  nia.
Qed.

Lemma ceil_div_unique a b q :
  (0 < b)%Z -> ((q - 1) * b < a <= q * b)%Z -> Chunker.ceil_div a b = q.
Proof.
  intros Hb Hq. pose proof (ceil_div_spec a b Hb) as Hs. nia.
Qed.


End ChunkCount.




(** * Further properties of the code *)

(** ** Strings *)

Section Strings.

Lemma append_nil_r s : (s ++ "")%string = s.
Proof. induction s as [|c s IH]; simpl; congruence. Qed.

Lemma append_assoc a b c : ((a ++ b) ++ c)%string = (a ++ (b ++ c))%string.
Proof. induction a as [|x a IH]; simpl; congruence. Qed.

Lemma length_append a b :
  String.length (a ++ b) = (String.length a + String.length b)%nat.
Proof. induction a as [|x a IH]; simpl; congruence. Qed.

(** Two ways of cutting one string: the longer head is the shorter head
    followed by a middle part, which starts the other tail. *)
Lemma append_split a2 :
  forall a1 b1 b2,
    (a1 ++ b1)%string = (a2 ++ b2)%string ->
    (String.length a2 <= String.length a1)%nat ->
    exists c, a1 = (a2 ++ c)%string /\ b2 = (c ++ b1)%string.
Proof.
  induction a2 as [|x a2 IH]; intros a1 b1 b2 H Hlen; simpl in *.
  - exists a1. auto.
  - destruct a1 as [|y a1]; simpl in *; [lia|].
    injection H as -> H.
    destruct (IH a1 b1 b2 H ltac:(lia)) as [c [-> ->]].
    exists c. auto.
Qed.

Lemma append_inv_tail a1 a2 b :
  (a1 ++ b)%string = (a2 ++ b)%string -> a1 = a2.
Proof.
  intros H.
  assert (Hlen : String.length a2 = String.length a1).
  { apply (f_equal String.length) in H. rewrite !length_append in H. lia. }
  destruct (append_split a2 a1 b b H ltac:(lia)) as [c [-> _]].
  rewrite length_append in Hlen.
  destruct c; simpl in Hlen; [apply append_nil_r|lia].
Qed.

Lemma last_char_append a x c :
  Text.last_char (a ++ String x c) = Text.last_char (String x c).
Proof.
  induction a as [|y a IH]; [reflexivity|].
  cbn [append]. cbn [Text.last_char].
  destruct (a ++ String x c)%string eqn:Ha.
  - destruct a; discriminate.
  - exact IH.
Qed.

Lemma all_digits_append a b :
  Text.all_digits (a ++ b) = Text.all_digits a && Text.all_digits b.
Proof.
  induction a as [|x a IH]; simpl; auto. now rewrite IH, andb_assoc.
Qed.

Lemma all_digits_last s x :
  Text.all_digits s = true -> Text.last_char s = Some x ->
  Text.isdigit x = true.
Proof.
  induction s as [|c s IH]; [discriminate|].
  cbn [Text.all_digits]. intros H. apply andb_true_iff in H.
  destruct H as [Hc Hs]. cbn [Text.last_char].
  destruct s; [intros [= <-]; exact Hc|]. apply IH, Hs.
Qed.

(** [str(i)] is a non-empty string of digits, and different numbers have
    different strings. *)
Lemma str_all_digits i : Text.all_digits (Py.str i) = true.
Proof.
  unfold Py.str.
  assert (H : forall d, Text.all_digits (NilEmpty.string_of_uint d) = true)
    by (induction d; simpl; auto).
  destruct (Nat.to_uint i); unfold NilZero.string_of_uint;
    first [reflexivity|apply H].
Qed.

Lemma str_inj i j : Py.str i = Py.str j -> i = j.
Proof.
  assert (P : forall n,
             option_map Nat.of_uint (NilZero.uint_of_string (Py.str n)) = Some n).
  { intros n. unfold Py.str.
    pose proof (DecimalNat.Unsigned.of_to n) as Hn.
    destruct (Nat.to_uint n) eqn:Hd;
      try (rewrite NilZero.usu by discriminate; simpl; f_equal; exact Hn).
    simpl in *. now f_equal. }
  intros H. pose proof (P i) as Hi. rewrite H, P in Hi. congruence.
Qed.

(** A string that ends in ["_chunk_"] and digits has one title and one
    string of digits. *)
Lemma chunk_suffix_unique t1 t2 d1 d2 :
  Text.all_digits d1 = true -> Text.all_digits d2 = true ->
  (t1 ++ "_chunk_" ++ d1)%string = (t2 ++ "_chunk_" ++ d2)%string ->
  t1 = t2 /\ d1 = d2.
Proof.
  assert (Hlast : forall t, Text.last_char (t ++ "_chunk_") = Some "_"%char)
    by (intros t; now rewrite last_char_append).
  assert (Hcase : forall a1 a2 e1 e2,
             Text.all_digits e2 = true ->
             ((a1 ++ "_chunk_") ++ e1)%string = ((a2 ++ "_chunk_") ++ e2)%string ->
             (String.length (a2 ++ "_chunk_") <= String.length (a1 ++ "_chunk_"))%nat ->
             a1 = a2 /\ e1 = e2).
  { intros a1 a2 e1 e2 He2 H Hlen.
    destruct (append_split _ _ _ _ H Hlen) as [c [Ha He]].
    destruct c as [|x c].
    - rewrite append_nil_r in Ha. simpl in He. split; [|congruence].
      now apply append_inv_tail in Ha.
    - exfalso. pose proof (Hlast a1) as H1. rewrite Ha, last_char_append in H1.
      rewrite He, all_digits_append in He2. apply andb_true_iff in He2.
      pose proof (all_digits_last _ _ (proj1 He2) H1). discriminate. }
  intros H1 H2 H. rewrite <- !append_assoc in H.
  destruct (Nat.le_ge_cases (String.length (t2 ++ "_chunk_"))
              (String.length (t1 ++ "_chunk_"))) as [Hl|Hl].
  - apply (Hcase t1 t2 d1 d2 H2 H Hl).
  - destruct (Hcase t2 t1 d2 d1 H1 (eq_sym H) Hl). auto.
Qed.

End Strings.

(** X1.  The identifier determines the title and the position: two records
    built by the loop of lines 123-131 have the same [chunk_id] only when
    they have the same title and the same position. *)
Theorem chunk_id_injective :
  forall (t1 t2 : string) (i1 i2 : nat),
    (t1 ++ "_chunk_" ++ Py.str i1)%string = (t2 ++ "_chunk_" ++ Py.str i2)%string ->
    t1 = t2 /\ i1 = i2.
Proof.
  intros t1 t2 i1 i2 H.
  destruct (chunk_suffix_unique t1 t2 _ _ (str_all_digits i1) (str_all_digits i2) H)
    as [Ht Hd].
  split; [exact Ht|apply str_inj, Hd].
Qed.

Lemma chunk_id_injective_witness :
  "Foo_chunk" = "Foo_chunk" /\ 1%nat = 1%nat.
Proof.
  apply (chunk_id_injective "Foo_chunk" "Foo_chunk" 1 1). reflexivity.
Defined.

Section BookRecords.

Lemma enumerate_from_fst {A : Type} (start : nat) (xs : list A) :
  map fst (Py.enumerate_from start xs) = seq start (List.length xs).
Proof.
  revert start; induction xs as [|x xs IH]; intros start; simpl; auto.
  now rewrite IH.
Qed.

Lemma build_records_chunk_num title chunks embeddings :
  map chunk_num (build_records title chunks embeddings)
  = seq 0 (Nat.min (List.length chunks) (List.length embeddings)).
Proof.
  unfold build_records, Py.enumerate. rewrite map_map.
  rewrite <- zip_length, <- enumerate_from_fst.
  apply map_ext. intros [i [c e]]. reflexivity.
Qed.

Lemma build_records_shape title chunks embeddings r :
  In r (build_records title chunks embeddings) ->
  book_title r = title /\
  chunk_id r = (title ++ "_chunk_" ++ Py.str (chunk_num r))%string.
Proof.
  unfold build_records. rewrite in_map_iff.
  intros [[i [c e]] [<- _]]. split; reflexivity.
Qed.

Lemma NoDup_map_chunk_id records :
  (forall r, In r records ->
             chunk_id r = (book_title r ++ "_chunk_" ++ Py.str (chunk_num r))%string) ->
  NoDup (map (fun r => (book_title r, chunk_num r)) records) ->
  NoDup (map chunk_id records).
Proof.
  induction records as [|r records IH]; simpl; intros Hshape Hnd;
    [constructor|].
  inversion Hnd as [|? ? Hnot Hnd']; subst. constructor.
  - intros Hin. apply Hnot. apply in_map_iff in Hin.
    destruct Hin as [r' [Heq Hin']]. apply in_map_iff. exists r'. split; auto.
    rewrite (Hshape r (or_introl eq_refl)) in Heq.
    rewrite (Hshape r' (or_intror Hin')) in Heq.
    apply chunk_suffix_unique in Heq; try apply str_all_digits.
    destruct Heq as [-> Hd]. apply str_inj in Hd. now rewrite Hd.
  - apply IH; auto.
Qed.

Lemma book_records_numbered_and_distinct_aux title chunks embeddings :
  NoDup (map chunk_id (build_records title chunks embeddings)).
Proof.
  apply NoDup_map_chunk_id.
  - intros r Hr. destruct (build_records_shape _ _ _ _ Hr) as [-> H]. exact H.
  - assert (H : map (fun r => (book_title r, chunk_num r))
                  (build_records title chunks embeddings)
                = map (fun i => (title, i))
                    (map chunk_num (build_records title chunks embeddings))).
    { rewrite map_map. apply map_ext_in. intros r Hr.
      destruct (build_records_shape _ _ _ _ Hr) as [-> _]. reflexivity. }
    rewrite H, build_records_chunk_num.
    generalize (seq_NoDup (Nat.min (List.length chunks) (List.length embeddings)) 0).
    generalize (seq 0 (Nat.min (List.length chunks) (List.length embeddings))).
    induction l as [|i l IH]; simpl; intros Hnd; [constructor|].
    inversion Hnd as [|? ? Hnot Hnd']; subst. constructor; [|now apply IH].
    rewrite in_map_iff. intros [j [[= ->] Hj]]. contradiction.
Qed.

End BookRecords.

(** X2.  The records of one book are numbered without a gap: their
    [chunk_num]s are [0, 1, ..., k-1] in order, where [k] is the smaller of
    the number of chunks and the number of vectors, and no two of them
    have the same [chunk_id]. *)
Theorem book_records_numbered_and_distinct :
  forall (t : string) (chunks : list string) (embeddings : list (list float)),
    map chunk_num (build_records t chunks embeddings)
    = seq 0 (Nat.min (List.length chunks) (List.length embeddings)) /\
    NoDup (map chunk_id (build_records t chunks embeddings)).
Proof.
  intros t chunks embeddings. split.
  - apply build_records_chunk_num.
  - apply book_records_numbered_and_distinct_aux.
Qed.

(** ** File names and titles *)

Section Titles.

Lemma rfind_from_append c a b :
  forall i found,
    Py.rfind_from c (a ++ b) i found
    = Py.rfind_from c b (i + Z.of_nat (String.length a))
        (Py.rfind_from c a i found).
Proof.
  induction a as [|x a IH]; intros i found; simpl String.length.
  - simpl. now rewrite Z.add_0_r.
  - cbn [append Py.rfind_from]. rewrite IH. f_equal. lia.
Qed.

Lemma rfind_from_absent c s :
  Text.mem c s = false -> forall i found, Py.rfind_from c s i found = found.
Proof.
  induction s as [|x s IH]; simpl; auto.
  intros H i found. apply orb_false_iff in H. destruct H as [Hx Hs].
  rewrite Hx. now apply IH.
Qed.

Lemma has_non_dot_append a b :
  forall i lo hi,
    OsPath.has_non_dot (a ++ b) i lo hi
    = OsPath.has_non_dot a i lo hi
      || OsPath.has_non_dot b (i + Z.of_nat (String.length a)) lo hi.
Proof.
  induction a as [|x a IH]; intros i lo hi; simpl String.length.
  - simpl. now rewrite Z.add_0_r.
  - cbn [append OsPath.has_non_dot]. rewrite IH, orb_assoc.
    do 2 f_equal. lia.
Qed.

Lemma has_non_dot_inside s :
  forall i hi,
    (0 <= i)%Z -> (i + Z.of_nat (String.length s) <= hi)%Z ->
    OsPath.has_non_dot s i 0 hi = negb (Text.all_char "." s).
Proof.
  induction s as [|x s IH]; intros i hi Hi Hhi; [reflexivity|].
  cbn [OsPath.has_non_dot Text.all_char]. simpl String.length in Hhi.
  rewrite IH by lia.
  replace (0 <=? i)%Z with true by (symmetry; apply Z.leb_le; lia).
  replace (i <? hi)%Z with true by (symmetry; apply Z.ltb_lt; lia).
  simpl. now rewrite negb_andb.
Qed.

Lemma has_non_dot_outside s :
  forall i lo hi, (hi <= i)%Z -> OsPath.has_non_dot s i lo hi = false.
Proof.
  induction s as [|x s IH]; intros i lo hi Hi; [reflexivity|].
  cbn [OsPath.has_non_dot]. rewrite IH by lia.
  replace (i <? hi)%Z with false by (symmetry; apply Z.ltb_ge; lia).
  now rewrite andb_false_r.
Qed.

Lemma take_append a b : Py.take (String.length a) (a ++ b) = a.
Proof. induction a as [|x a IH]; simpl; [now destruct b|congruence]. Qed.

Lemma drop_append a b : Py.drop (String.length a) (a ++ b) = b.
Proof. induction a as [|x a IH]; simpl; auto. Qed.

Lemma all_char_no_other c d s :
  Text.all_char c s = true -> d <> c -> Text.mem d s = false.
Proof.
  intros H Hd. induction s as [|x s IH]; simpl in *; auto.
  apply andb_true_iff in H. destruct H as [Hx Hs].
  apply Ascii.eqb_eq in Hx. subst x. rewrite (IH Hs).
  destruct (Ascii.eqb_spec d c); [contradiction|reflexivity].
Qed.

Lemma rev_string_append a b :
  forall acc, Py.rev_string (a ++ b) acc = Py.rev_string b (Py.rev_string a acc).
Proof. induction a as [|x a IH]; intros acc; simpl; auto. Qed.

Lemma rev_string_acc s :
  forall acc, Py.rev_string s acc = (Py.rev_string s "" ++ acc)%string.
Proof.
  induction s as [|x s IH]; intros acc; simpl; auto.
  rewrite (IH (String x acc)), (IH (String x "")), append_assoc. reflexivity.
Qed.

Lemma prefix_append p q : prefix p (p ++ q) = true.
Proof.
  induction p as [|x p IH]; simpl; [now destruct q|].
  destruct (ascii_dec x x); [exact IH|contradiction].
Qed.

Lemma endswith_append s suffix : Py.endswith (s ++ suffix) suffix = true.
Proof.
  unfold Py.endswith.
  rewrite rev_string_append, (rev_string_acc suffix (Py.rev_string s "")).
  apply prefix_append.
Qed.

(** The two indices [os.path.splitext] looks for, in a name that ends in
    [".epub"] and has no [/]. *)
Lemma epub_name_indices stem :
  Text.mem "/" stem = false ->
  Py.rfind "/" (stem ++ ".epub") = (-1)%Z /\
  Py.rfind "." (stem ++ ".epub") = Z.of_nat (String.length stem).
Proof.
  intros Hs. unfold Py.rfind. rewrite !rfind_from_append. split.
  - rewrite (rfind_from_absent _ _ Hs). reflexivity.
  - reflexivity.
Qed.

End Titles.

(** X3.  A directory entry [stem ++ ".epub"] whose stem has a character
    other than a dot is taken as a book (line 104) and its title is the
    stem (line 109).  So two such entries with different names have
    different titles. *)
Theorem title_of_epub_file :
  forall stem : string,
    Text.mem "/" stem = false ->
    Text.all_char "." stem = false ->
    Py.endswith (stem ++ ".epub") ".epub" = true /\
    fst (OsPath.splitext (stem ++ ".epub")) = stem.
Proof.
  intros stem Hslash Hdots. split; [apply endswith_append|].
  unfold OsPath.splitext.
  destruct (epub_name_indices stem Hslash) as [-> ->].
  rewrite has_non_dot_append, has_non_dot_inside, Hdots, Nat2Z.id by lia.
  replace (-1 <? Z.of_nat (String.length stem))%Z with true
    by (symmetry; apply Z.ltb_lt; lia).
  simpl. apply take_append.
Qed.

Lemma title_of_epub_file_witness :
  Py.endswith ("war.and.peace" ++ ".epub") ".epub" = true /\
  fst (OsPath.splitext ("war.and.peace" ++ ".epub")) = "war.and.peace".
Proof.
  apply (title_of_epub_file "war.and.peace"); reflexivity.
Defined.

(** X4.  A directory entry that is nothing but dots before [".epub"]
    (among them the entry [".epub"] itself) is taken as a book too, and
    its title is the whole name, extension included: [os.path.splitext]
    sees a name of leading dots and finds no extension. *)
Theorem title_of_dot_file :
  forall dots : string,
    Text.all_char "." dots = true ->
    Py.endswith (dots ++ ".epub") ".epub" = true /\
    fst (OsPath.splitext (dots ++ ".epub")) = (dots ++ ".epub")%string.
Proof.
  intros dots Hdots. split; [apply endswith_append|].
  unfold OsPath.splitext.
  assert (Hslash : Text.mem "/" dots = false)
    by (apply (all_char_no_other "." "/" dots Hdots); discriminate).
  destruct (epub_name_indices dots Hslash) as [-> ->].
  rewrite has_non_dot_append, has_non_dot_inside, Hdots by lia.
  rewrite has_non_dot_outside by lia.
  now rewrite andb_false_r.
Qed.

Lemma title_of_dot_file_witness :
  Py.endswith (".." ++ ".epub") ".epub" = true /\
  fst (OsPath.splitext (".." ++ ".epub")) = "...epub".
Proof.
  apply (title_of_dot_file ".."). reflexivity.
Defined.

(** Two entries of one directory with one title: the chunks of both get
    the same identifiers. *)
Example same_title_for_two_files :
  titles ["..epub"; "..epub.epub"] = ["..epub"; "..epub"].
Proof. reflexivity. Qed.

(** ** What extraction keeps *)

Section Extraction.

Lemma chapters_of_append pre rest :
  forall chapters,
    chapters_of (pre ++ rest) chapters
    = match chapters_of pre chapters with
      | inr kept => chapters_of rest kept
      | inl e => inl e
      end.
Proof.
  induction pre as [|item pre IH]; intros chapters; [reflexivity|].
  rewrite <- app_comm_cons. cbn [chapters_of].
  destruct (is_document item); [|apply IH].
  destruct (get_text item) as [e|text]; [reflexivity|].
  destruct (Py.truthy (Py.strip text)); apply IH.
Qed.

Lemma chapters_of_kept items :
  (forall item, In item items -> is_document item = true ->
                exists text, get_text item = inr text) ->
  forall chapters,
    chapters_of items chapters = inr (chapters ++ kept_texts items).
Proof.
  induction items as [|item items IH]; intros Hok chapters.
  - simpl. now rewrite app_nil_r.
  - cbn [chapters_of kept_texts flat_map].
    assert (Hrest : forall it, In it items -> is_document it = true ->
                               exists text, get_text it = inr text)
      by (intros it Hin; apply Hok; now right).
    destruct (is_document item) eqn:Hd; [|now apply IH].
    destruct (Hok item (or_introl eq_refl) Hd) as [text ->].
    destruct (Py.truthy (Py.strip text)).
    + rewrite (IH Hrest), <- app_assoc. reflexivity.
    + now apply IH.
Qed.

End Extraction.

(** X5.  When the reader returns the items of a book and the text of every
    document item can be read, [extract_text_from_epub] returns the texts
    of the document items that are not blank, in the order of the items,
    joined by single spaces; items of another type and blank texts leave
    no trace, and nothing is logged. *)
Theorem extracted_text_is_joined_chapters :
  forall (E : Env) (epub_path : string) (items : list Item) (w : World),
    read_epub E epub_path = inr items ->
    (forall item, In item items -> is_document item = true ->
                  exists text, get_text item = inr text) ->
    extract_text_from_epub E epub_path w
    = (inr (Py.join " " (kept_texts items)), w).
Proof.
  intros E path items w Hr Hok.
  rewrite extract_text_from_epub_run, Hr, (chapters_of_kept items Hok []).
  reflexivity.
Qed.

Lemma extracted_text_is_joined_chapters_witness :
  extract_text_from_epub (Demo.env [] Demo.encoder) "books/Foo.epub" Demo.ready
  = (inr "Hello world", Demo.ready).
Proof.
  apply (extracted_text_is_joined_chapters (Demo.env [] Demo.encoder)
           "books/Foo.epub"
           [mkItem false (inr "cover"); mkItem true (inr "Hello");
            mkItem true (inr "world")] Demo.ready).
  - reflexivity.
  - intros item [<-|[<-|[<-|[]]]] _; eexists; reflexivity.
Defined.

(** X6.  When the text of one document item cannot be read, the whole book
    is lost: [extract_text_from_epub] returns the empty text, whatever the
    items before it gave, logs one error with the path and the cause, and
    raises nothing. *)
Theorem unreadable_item_empties_book :
  forall (E : Env) (epub_path : string) (pre post : list Item) (item : Item)
         (e : exception) (w : World),
    read_epub E epub_path = inr (pre ++ item :: post) ->
    (forall it, In it pre -> is_document it = true ->
                exists text, get_text it = inr text) ->
    is_document item = true ->
    get_text item = inl e ->
    extract_text_from_epub E epub_path w
    = (inr "",
       logged w [ERROR ("Failed to extract text from " ++ epub_path ++ ": "
                        ++ exc_msg e)]).
Proof.
  intros E path pre post item e w Hr Hpre Hd He.
  rewrite extract_text_from_epub_run, Hr, chapters_of_append,
    (chapters_of_kept pre Hpre []).
  cbn [chapters_of]. rewrite Hd, He. reflexivity.
Qed.

Lemma unreadable_item_empties_book_witness :
  let E := mkEnv (fun _ => inr [])
             (fun _ => inr [mkItem true (inr "Chapter one");
                            mkItem true (inl (Exc "UnicodeDecodeError" "bad byte"));
                            mkItem true (inr "Chapter three")])
             (fun _ _ => inr Demo.splitter) (fun _ => inr Demo.encoder)
             (fun _ => None) None (fun _ _ => None) in
  extract_text_from_epub E "books/Foo.epub" Demo.ready
  = (inr "",
     logged Demo.ready
       [ERROR "Failed to extract text from books/Foo.epub: bad byte"]).
Proof.
  intros E.
  apply (unreadable_item_empties_book E "books/Foo.epub"
           [mkItem true (inr "Chapter one")] [mkItem true (inr "Chapter three")]
           (mkItem true (inl (Exc "UnicodeDecodeError" "bad byte")))
           (Exc "UnicodeDecodeError" "bad byte") Demo.ready).
  - reflexivity.
  - intros it [<-|[]] _. eexists; reflexivity.
  - reflexivity.
  - reflexivity.
Defined.

(** ** What a save does to the table *)

Section Store.



Lemma upsert_all_fresh rs :
  forall t,
    NoDup (map chunk_id t ++ map chunk_id rs) ->
    Sql.upsert_all rs t = t ++ rs.
Proof.
  induction rs as [|r rs IH]; intros t Hnd; simpl.
  - now rewrite app_nil_r.
  - assert (Hk : Sql.has_key (chunk_id r) t = false).
    { apply has_key_false. intros Hin.
      apply NoDup_remove_2 in Hnd. apply Hnd, in_or_app. now left. }
    unfold Sql.upsert. rewrite Hk, IH.
    + now rewrite <- app_assoc.
    + rewrite map_app, <- app_assoc. exact Hnd.
Qed.

Lemma first_refusal_of_violation fault rs r :
  In r rs -> Sql.schema_accepts r = false ->
  forall t, Psycopg2.first_refusal fault rs t <> None.
Proof.
  induction rs as [|r0 rs IH]; intros Hin Hr t; [destruct Hin|].
  cbn [Psycopg2.first_refusal].
  destruct (Sql.schema_accepts r0) eqn:H0; simpl; [|discriminate].
  destruct (fault t r0); [discriminate|].
  destruct Hin as [->|Hin]; [congruence|]. now apply IH.
Qed.

End Store.

(** X7.  [_save_to_postgres] never deletes and never touches a row it was
    not given: on an open connection, whatever the outcome, the table
    keeps its primary key, every [chunk_id] that was in the table is still
    there, and the rows of every [chunk_id] outside the batch are the rows
    from before the call. *)
Theorem save_keeps_other_rows :
  forall (E : Env) (records : list Record_) (w : World),
    conn w = Some idle ->
    Sql.primary_key (server w) ->
    let w' := snd (_save_to_postgres E records w) in
    Sql.primary_key (server w') /\
    (forall k, In k (map chunk_id (server w)) -> In k (map chunk_id (server w'))) /\
    (forall k, ~ In k (map chunk_id records) ->
               Sql.rows_with k (server w') = Sql.rows_with k (server w)).
Proof.
  intros E records w Hc Hpk w'. subst w'.
  rewrite (_save_to_postgres_spec E records w idle Hc eq_refl).
  cbn [Psycopg2.view idle pending].
  destruct (Psycopg2.first_refusal (insert_fault E) records (server w));
    cbn [snd server]; repeat split; auto.
  - now apply upsert_all_primary_key.
  - intros k. apply upsert_all_keys_incl.
  - intros k. apply upsert_all_rows_with_other.
Qed.

Lemma save_keeps_other_rows_witness :
  let E := Demo.env [] Demo.encoder in
  let old := Demo.record "Old_chunk_0" "old" 384 in
  let w := mkWorld [old] (Some idle) 1 [] in
  let w' := snd (_save_to_postgres E [Demo.record "Foo_chunk_0" "a" 384] w) in
  Sql.rows_with "Old_chunk_0" (server w') = [old].
Proof.
  intros E old w w'.
  destruct (save_keeps_other_rows E [Demo.record "Foo_chunk_0" "a" 384] w
              eq_refl) as [_ [_ H]].
  - repeat constructor. simpl. tauto.
  - apply (H "Old_chunk_0"). simpl. intros [H0|[]]. discriminate.
Defined.

(** X8.  One record that the column types of [epub_chunks] do not admit (a
    vector whose dimension is not 384, or a [chunk_num] beyond the range
    of INTEGER) makes the whole save fail, wherever it stands in the
    batch: [_save_to_postgres] raises and no row of the batch is stored. *)
Theorem schema_violation_stores_nothing :
  forall (E : Env) (records : list Record_) (r : Record_) (w : World),
    conn w = Some idle ->
    In r records ->
    Sql.schema_accepts r = false ->
    (exists e, fst (_save_to_postgres E records w) = inl e) /\
    server (snd (_save_to_postgres E records w)) = server w.
Proof.
  intros E records r w Hc Hin Hr.
  rewrite (_save_to_postgres_spec E records w idle Hc eq_refl).
  pose proof (first_refusal_of_violation (insert_fault E) records r Hin Hr
                (Psycopg2.view idle w)) as Hf.
  destruct (Psycopg2.first_refusal (insert_fault E) records (Psycopg2.view idle w))
    as [e|]; [|contradiction].
  split; [exists e|]; reflexivity.
Qed.

Lemma schema_violation_stores_nothing_witness :
  let E := Demo.env [] Demo.encoder in
  let batch := [Demo.record "Foo_chunk_0" "a" 384;
                Demo.record "Foo_chunk_1" "b" 384;
                Demo.record "Foo_chunk_2" "c" 383] in
  (exists e, fst (_save_to_postgres E batch Demo.ready) = inl e) /\
  server (snd (_save_to_postgres E batch Demo.ready)) = server Demo.ready.
Proof.
  intros E batch.
  apply (schema_violation_stores_nothing E batch
           (Demo.record "Foo_chunk_2" "c" 383) Demo.ready).
  - reflexivity.
  - simpl. tauto.
  - vm_compute. reflexivity.
Defined.

(** ** What a run does to the table *)

Section RunOutcome.

Variable E : Env.

(** The two ways [process_directory] can end on an open connection: it
    raises with the rows untouched, or it returns the number of records
    the loop collected, after saving them all. *)
Lemma process_directory_outcome self w :
  conn w = Some idle ->
  (exists e l,
      process_directory E self w
      = (inl e, mkWorld (server w) (Some idle) (connects w) (log w ++ l))) \/
  (exists entries records l0 l,
      listdir E (input_dir self) = inr entries /\
      (forall w0,
          for_epub_files E self
            (filter (fun f => Py.endswith f ".epub") entries) [] w0
          = (inr records, logged w0 l0)) /\
      process_directory E self w
      = (inr (List.length records),
         mkWorld (Sql.upsert_all records (server w)) (Some idle) (connects w)
                 (log w ++ l))).
Proof.
  intros Hc.
  destruct (listdir E (input_dir self)) as [e|entries] eqn:Hls.
  { left. exists e, []. unfold process_directory.
    rewrite bind_run, Hls, app_nil_r. cbn [call raise].
    destruct w; simpl in *; now subst. }
  destruct (for_epub_files_logs E self
              (filter (fun f => Py.endswith f ".epub") entries) [])
    as [r [l Hloop]].
  rewrite (process_directory_run E self w idle entries r l Hc eq_refl Hls Hloop).
  cbn [Psycopg2.view idle pending].
  destruct r as [e|records].
  { left. exists e, l. unfold logged. now rewrite Hc. }
  destruct (Psycopg2.first_refusal (insert_fault E) records (server w)) as [e|].
  - left. eexists. eexists. rewrite <- app_assoc. reflexivity.
  - right. exists entries, records, l. eexists. repeat split; auto.
    rewrite <- !app_assoc. reflexivity.
Qed.

(** Under pairwise different titles the records the loop collects have
    pairwise different identifiers. *)
Lemma for_epub_files_distinct self epub_files :
  forall all_records w records w',
    for_epub_files E self epub_files all_records w = (inr records, w') ->
    (forall r, In r all_records ->
               chunk_id r
               = (book_title r ++ "_chunk_" ++ Py.str (chunk_num r))%string) ->
    NoDup (map chunk_id all_records) ->
    (forall r, In r all_records -> ~ In (book_title r) (titles epub_files)) ->
    NoDup (titles epub_files) ->
    NoDup (map chunk_id records).
Proof.
  induction epub_files as [|f rest IH];
    intros acc w records w' Hrun Hshape Hnd Hold Htitles.
  - injection Hrun as <- _. exact Hnd.
  - cbn [for_epub_files] in Hrun. rewrite bind_run in Hrun.
    destruct (extract_text_from_epub E (OsPath.join (input_dir self) f) w)
      as [[e|text] w1]; [discriminate|].
    cbn [titles map] in Htitles, Hold. fold (titles rest) in Htitles, Hold.
    inversion Htitles as [|? ? Hfresh Hrest]; subst.
    destruct (negb (Py.truthy text)).
    + apply (IH acc w1 records w' Hrun Hshape Hnd); auto.
      intros r Hr Hin. apply (Hold r Hr). now right.
    + rewrite bind_run in Hrun.
      destruct (embedding_model self (text_splitter self text))
        as [e|embeddings]; [discriminate|].
      cbn [call ret] in Hrun.
      set (title := fst (OsPath.splitext f)) in *.
      set (new := build_records title (text_splitter self text) embeddings) in *.
      apply (IH (acc ++ new) w1 records w' Hrun); auto.
      * intros r Hr. apply in_app_or in Hr. destruct Hr as [Hr|Hr]; auto.
        destruct (build_records_shape _ _ _ _ Hr) as [-> H]. exact H.
      * rewrite map_app. apply NoDup_app; auto.
        -- apply book_records_numbered_and_distinct_aux.
        -- intros k Hk Hk'. apply in_map_iff in Hk, Hk'.
           destruct Hk as [r [Hr Hin]]. destruct Hk' as [r' [Hr' Hin']].
           rewrite (Hshape r Hin) in Hr.
           destruct (build_records_shape _ _ _ _ Hin') as [Ht Hs].
           rewrite Hs, <- Hr in Hr'. apply chunk_suffix_unique in Hr';
             try apply str_all_digits.
           destruct Hr' as [Heq _]. apply (Hold r Hin). left. congruence.
      * intros r Hr. apply in_app_or in Hr. destruct Hr as [Hr|Hr].
        -- intros Hin. apply (Hold r Hr). now right.
        -- destruct (build_records_shape _ _ _ _ Hr) as [-> _]. exact Hfresh.
Qed.

End RunOutcome.

(** X9.  A run that raises, for whatever reason (the listing, the model,
    a refused statement), has stored nothing: the committed rows are those
    from before the run, and the connection is open with no transaction in
    progress, ready for another run. *)
Theorem failed_run_stores_nothing :
  forall (E : Env) (self : Processor) (w w' : World) (e : exception),
    conn w = Some idle ->
    process_directory E self w = (inl e, w') ->
    server w' = server w /\ conn w' = Some idle /\ connects w' = connects w.
Proof.
  intros E self w w' e Hc Hrun.
  destruct (process_directory_outcome E self w Hc)
    as [[e0 [l H]]|[entries [records [l0 [l [_ [_ H]]]]]]];
    rewrite H in Hrun; [|discriminate].
  injection Hrun as _ <-. repeat split.
Qed.

Lemma failed_run_stores_nothing_witness :
  let E := Demo.env ["Foo.epub"] Demo.encoder in
  let self := mkProcessor "books" Demo.cfg 512 64 Demo.splitter
                (fun chunks => inr (map (fun _ => [1%float]) chunks)) in
  let w := mkWorld [Demo.record "Old_chunk_0" "old" 384] (Some idle) 1 [] in
  let out := process_directory E self w in
  server (snd out) = server w /\ conn (snd out) = Some idle /\
  connects (snd out) = connects w.
Proof.
  intros E self w out.
  apply (failed_run_stores_nothing E self w (snd out)
           (Exc "DataError" "Foo_chunk_0")).
  - reflexivity.
  - vm_compute. reflexivity.
Defined.



(** Here the run returns 2 and adds one row: ["Foo_chunk_0"] was there. *)
Example returned_count_is_not_rows_added :
  let E := Demo.env ["Foo.epub"] Demo.encoder in
  let w := mkWorld [Demo.record "Foo_chunk_0" "old" 384] (Some idle) 1 [] in
  let out := process_directory E (Demo.processor Demo.encoder) w in
  fst out = inr 2%nat /\ List.length (server (snd out)) = 2%nat.
Proof. vm_compute. split; reflexivity. Qed.

(** X11.  When the books of the directory have pairwise different titles
    and the table is empty, the run stores one row per record: the number
    [process_directory] returns is the number of rows of the table
    afterwards. *)
Theorem fresh_run_stores_returned_count :
  forall (E : Env) (self : Processor) (w w' : World) (n : nat)
         (entries : list string),
    conn w = Some idle ->
    server w = [] ->
    listdir E (input_dir self) = inr entries ->
    NoDup (titles (filter (fun f => Py.endswith f ".epub") entries)) ->
    process_directory E self w = (inr n, w') ->
    List.length (server w') = n /\ Sql.primary_key (server w').
Proof.
  intros E self w w' n entries Hc Hempty Hls Htitles Hrun.
  destruct (process_directory_outcome E self w Hc)
    as [[e0 [l H]]|[entries' [records [l0 [l [Hls' [Hloop H]]]]]]];
    rewrite H in Hrun; [discriminate|].
  injection Hrun as <- <-. cbn [server].
  rewrite Hls in Hls'. injection Hls' as <-.
  assert (Hnd : NoDup (map chunk_id records)).
  { apply (for_epub_files_distinct E self _ [] w records _ (Hloop w));
      simpl; auto; try tauto. constructor. }
  rewrite Hempty, upsert_all_fresh by exact Hnd.
  split; [reflexivity|exact Hnd].
Qed.

Lemma fresh_run_stores_returned_count_witness :
  let E := Demo.env ["Foo.epub"; "notes.txt"; "Blank.epub"] Demo.encoder in
  let w' := snd (process_directory E (Demo.processor Demo.encoder) Demo.ready) in
  List.length (server w') = 2%nat /\ Sql.primary_key (server w').
Proof.
  intros E w'.
  apply (fresh_run_stores_returned_count E (Demo.processor Demo.encoder)
           Demo.ready w' 2 ["Foo.epub"; "notes.txt"; "Blank.epub"]).
  - reflexivity.
  - reflexivity.
  - reflexivity.
  - vm_compute. repeat constructor; simpl; intuition discriminate.
  - vm_compute. reflexivity.
Defined.

(** With one title for two files the second book overwrites the first:
    the run returns 4 and the table has 2 rows. *)
Example same_title_overwrites :
  let E := mkEnv (fun _ => inr ["..epub"; "..epub.epub"])
             (fun _ => inr [mkItem true (inr "Hello world")])
             (fun _ _ => inr Demo.splitter) (fun _ => inr Demo.encoder)
             (fun _ => None) None (fun _ _ => None) in
  let out := process_directory E (Demo.processor Demo.encoder) Demo.ready in
  fst out = inr 4%nat /\
  map chunk_id (server (snd out)) = ["..epub_chunk_0"; "..epub_chunk_1"].
Proof. vm_compute. split; reflexivity. Qed.

(** X12.  A directory with no entry that ends in [".epub"] is not an
    error: on an open connection [process_directory] returns 0.  And a run
    that returns 0 has left the rows of the table as they were. *)
Theorem empty_run_returns_zero :
  forall (E : Env) (self : Processor) (w : World) (entries : list string),
    conn w = Some idle ->
    listdir E (input_dir self) = inr entries ->
    (filter (fun f => Py.endswith f ".epub") entries = [] ->
     fst (process_directory E self w) = inr 0%nat) /\
    (fst (process_directory E self w) = inr 0%nat ->
     server (snd (process_directory E self w)) = server w).
Proof.
  intros E self w entries Hc Hls. split.
  - intros Hnone.
    rewrite (process_directory_run E self w idle entries (inr []) []
               Hc eq_refl Hls).
    + reflexivity.
    + intros w0. rewrite Hnone, logged_nil. reflexivity.
  - destruct (process_directory_outcome E self w Hc)
      as [[e0 [l H]]|[entries' [records [l0 [l [_ [_ H]]]]]]];
      rewrite H; cbn [fst snd server]; [discriminate|].
    intros [= Hn]. destruct records; [reflexivity|discriminate].
Qed.

Lemma empty_run_returns_zero_witness :
  let E := Demo.env ["notes.txt"; "cover.jpg"] Demo.encoder in
  let out := process_directory E (Demo.processor Demo.encoder) Demo.ready in
  fst out = inr 0%nat /\ server (snd out) = server Demo.ready.
Proof.
  intros E out.
  destruct (empty_run_returns_zero E (Demo.processor Demo.encoder) Demo.ready
              ["notes.txt"; "cover.jpg"] eq_refl eq_refl) as [H1 H2].
  split; [apply H1; reflexivity|apply H2, H1; reflexivity].
Defined.

(** ** The constructor, the finalizer and the script *)

(** X13.  When [psycopg2.connect] raises, [__init__] raises the same
    exception after logging one error with the cause; no connection was
    opened and [self.conn] is not set, so that the finalizer of the
    half-built object finds nothing to close and raises nothing. *)
Theorem connect_failure_leaves_no_connection :
  forall (E : Env) (dir : string) (cfg : DbConfig) (size overlap : Z)
         (w : World) (splitter : Splitter) (model : Encoder) (e : exception),
    conn w = None ->
    RecursiveCharacterTextSplitter E size overlap = inr splitter ->
    SentenceTransformer E "all-MiniLM-L6-v2" = inr model ->
    connect E cfg = Some e ->
    let w' := logged w [ERROR ("Failed to connect to database: " ++ exc_msg e)] in
    __init__ E dir cfg size overlap w = (inl e, w') /\
    conn w' = None /\ connects w' = connects w /\
    __del__ w' = (inr tt, w').
Proof.
  intros E dir cfg size overlap w splitter model e Hn Hs Hm Hc w'.
  rewrite (__init___run E dir cfg size overlap w Hn), Hs, Hm, Hc.
  subst w'. unfold __del__, logged. cbn [conn connects]. rewrite Hn.
  repeat split.
Qed.

Lemma connect_failure_leaves_no_connection_witness :
  let E := mkEnv (fun _ => inr []) Demo.books (fun _ _ => inr Demo.splitter)
             (fun _ => inr Demo.encoder)
             (fun _ => Some (Exc "OperationalError" "connection refused"))
             None (fun _ _ => None) in
  let w' := logged Demo.fresh
              [ERROR "Failed to connect to database: connection refused"] in
  __init__ E "books" Demo.cfg 512 64 Demo.fresh
    = (inl (Exc "OperationalError" "connection refused"), w') /\
  conn w' = None /\ connects w' = connects Demo.fresh /\
  __del__ w' = (inr tt, w').
Proof.
  intros E w'.
  apply (connect_failure_leaves_no_connection E "books" Demo.cfg 512 64
           Demo.fresh Demo.splitter Demo.encoder
           (Exc "OperationalError" "connection refused")); reflexivity.
Defined.

(** X14.  When a schema statement fails, [__init__] raises that exception
    after a rollback and an error in the log, but the connection it has
    just opened stays open in [self.conn]: the constructor has failed and
    the connection is closed only when the finalizer runs. *)
Theorem schema_failure_leaves_connection_open :
  forall (E : Env) (dir : string) (cfg : DbConfig) (size overlap : Z)
         (w : World) (splitter : Splitter) (model : Encoder) (e : exception),
    conn w = None ->
    RecursiveCharacterTextSplitter E size overlap = inr splitter ->
    SentenceTransformer E "all-MiniLM-L6-v2" = inr model ->
    connect E cfg = None ->
    ddl_fault E = Some e ->
    let out := __init__ E dir cfg size overlap w in
    fst out = inl e /\
    conn (snd out) = Some idle /\ connects (snd out) = S (connects w) /\
    log (snd out)
    = (log w ++ [INFO "Successfully connected to PostgreSQL database"])
      ++ [ERROR ("Database setup failed: " ++ exc_msg e)] /\
    conn (snd (__del__ (snd out))) = Some (mkConnection None true).
Proof.
  intros E dir cfg size overlap w splitter model e Hn Hs Hm Hc Hd out.
  subst out.
  rewrite (__init___run E dir cfg size overlap w Hn), Hs, Hm, Hc, Hd.
  repeat split.
Qed.

Lemma schema_failure_leaves_connection_open_witness :
  let E := mkEnv (fun _ => inr []) Demo.books (fun _ _ => inr Demo.splitter)
             (fun _ => inr Demo.encoder) (fun _ => None)
             (Some (Exc "UndefinedFile" "extension vector is not available"))
             (fun _ _ => None) in
  let out := __init__ E "books" Demo.cfg 512 64 Demo.fresh in
  fst out = inl (Exc "UndefinedFile" "extension vector is not available") /\
  conn (snd out) = Some idle /\ connects (snd out) = 1%nat /\
  log (snd out)
  = ([] ++ [INFO "Successfully connected to PostgreSQL database"])
    ++ [ERROR "Database setup failed: extension vector is not available"] /\
  conn (snd (__del__ (snd out))) = Some (mkConnection None true).
Proof.
  intros E.
  apply (schema_failure_leaves_connection_open E "books" Demo.cfg 512 64
           Demo.fresh Demo.splitter Demo.encoder
           (Exc "UndefinedFile" "extension vector is not available"));
    reflexivity.
Defined.

(** X15.  Building a processor never changes the rows of the table,
    whether [__init__] returns or raises: the schema statements create
    what is missing and leave what is there.  When it returns, the object
    holds the arguments it was given, and [self.conn] is an open
    connection with no transaction in progress. *)
Theorem init_keeps_rows :
  forall (E : Env) (dir : string) (cfg : DbConfig) (size overlap : Z)
         (w : World),
    conn w = None ->
    let out := __init__ E dir cfg size overlap w in
    server (snd out) = server w /\
    (forall self, fst out = inr self ->
       input_dir self = dir /\ db_config self = cfg /\
       chunk_size self = size /\ chunk_overlap self = overlap /\
       RecursiveCharacterTextSplitter E size overlap = inr (text_splitter self) /\
       SentenceTransformer E "all-MiniLM-L6-v2" = inr (embedding_model self) /\
       conn (snd out) = Some idle /\ connects (snd out) = S (connects w)).
Proof.
  intros E dir cfg size overlap w Hn out. subst out.
  rewrite (__init___run E dir cfg size overlap w Hn).
  destruct (RecursiveCharacterTextSplitter E size overlap) as [e|splitter];
    [split; [reflexivity|discriminate]|].
  destruct (SentenceTransformer E "all-MiniLM-L6-v2") as [e|model];
    [split; [reflexivity|discriminate]|].
  destruct (connect E cfg) as [e|]; [split; [reflexivity|discriminate]|].
  destruct (ddl_fault E) as [e|]; [split; [reflexivity|discriminate]|].
  split; [reflexivity|]. intros self [= <-]. repeat split.
Qed.

Lemma init_keeps_rows_witness :
  let w := mkWorld [Demo.record "Old_chunk_0" "old" 384] None 0 [] in
  server (snd (__init__ (Demo.env [] Demo.encoder) "books" Demo.cfg 512 64 w))
  = server w.
Proof.
  intros w.
  apply (init_keeps_rows (Demo.env [] Demo.encoder) "books" Demo.cfg 512 64 w).
  reflexivity.
Defined.

(** X16.  The finalizer never raises.  When [self.conn] is set it closes
    the connection, discarding a transaction in progress without
    committing it, so the committed rows stay as they are; running it a
    second time changes nothing but the log. *)
Theorem finalizer_is_safe :
  forall (w : World),
    fst (__del__ w) = inr tt /\
    server (snd (__del__ w)) = server w /\
    conn (snd (__del__ w))
    = match conn w with
      | Some _ => Some (mkConnection None true)
      | None => None
      end /\
    conn (snd (__del__ (snd (__del__ w)))) = conn (snd (__del__ w)).
Proof.
  intros w. destruct (conn w) as [c|] eqn:Hc.
  - rewrite (__del___run w c Hc). cbn [fst snd server conn].
    repeat split.
  - unfold __del__. rewrite Hc. cbn [fst snd]. rewrite Hc. repeat split; auto.
Qed.

(** X17.  Once the connection is closed nothing can be saved:
    [_save_to_postgres] raises [InterfaceError] (the rollback of the
    handler fails like the cursor did), logs the failure, and leaves the
    rows alone, even for an empty batch. *)
Theorem save_after_close_fails :
  forall (E : Env) (records : list Record_) (w : World) (c : Connection),
    conn w = Some c ->
    closed c = true ->
    _save_to_postgres E records w
    = (inl Psycopg2.InterfaceError,
       logged w [ERROR "Failed to save to database: connection already closed"]).
Proof.
  intros E records w c Hc Hclosed.
  unfold _save_to_postgres, try_except, Psycopg2.cursor, Psycopg2.rollback,
    Psycopg2.open_conn, logger_error, bind.
  rewrite Hc, Hclosed. cbn [conn]. rewrite Hc, Hclosed.
  unfold logged. rewrite Hc. reflexivity.
Qed.

Lemma save_after_close_fails_witness :
  let E := Demo.env ["Foo.epub"] Demo.encoder in
  let w := snd (__del__ Demo.ready) in
  _save_to_postgres E [Demo.record "Foo_chunk_0" "a" 384] w
  = (inl Psycopg2.InterfaceError,
     logged w [ERROR "Failed to save to database: connection already closed"]).
Proof.
  intros E w.
  apply (save_after_close_fails E _ w (mkConnection None true)); reflexivity.
Defined.

Section Script.

Variable E : Env.

Lemma main_failure_keeps_rows dir cfg w e w' :
  conn w = None ->
  main E dir cfg w = (inl e, w') -> server w' = server w.
Proof.
  intros Hn. unfold main. rewrite bind_run.
  rewrite (__init___run E dir cfg 512 64 w Hn).
  destruct (RecursiveCharacterTextSplitter E 512 64) as [e0|splitter];
    [now intros [= _ <-]|].
  destruct (SentenceTransformer E "all-MiniLM-L6-v2") as [e0|model];
    [now intros [= _ <-]|].
  destruct (connect E cfg) as [e0|]; [now intros [= _ <-]|].
  destruct (ddl_fault E) as [e0|]; [now intros [= _ <-]|].
  intros Hrun.
  match type of Hrun with
  | process_directory _ ?self ?w0 = _ =>
      destruct (process_directory_outcome E self w0 eq_refl)
        as [[e0 [l H]]|[entries [records [l0 [l [_ [_ H]]]]]]]
  end; rewrite H in Hrun; [|discriminate].
  now injection Hrun as _ <-.
Qed.

End Script.

(** X18.  The script never lets an exception out: it prints one line.
    The line reports the count when the run returned, and then the run's
    world is the script's; otherwise it is the error line with the
    message of the exception, and then no row of the table has changed. *)
Theorem script_reports_outcome :
  forall (E : Env) (environ : string -> option string) (w : World),
    conn w = None ->
    let run := main E "path/to/epubs" (script_db_config environ) w in
    exists line,
      script E environ w = (inr line, snd run) /\
      ((exists n,
           fst run = inr n /\
           line = ("Successfully processed and stored " ++ Py.str n
                   ++ " chunks in PostgreSQL")%string) \/
       (exists e,
           fst run = inl e /\
           line = ("An error occurred: " ++ exc_msg e)%string /\
           server (snd run) = server w)).
Proof.
  intros E environ w Hn run.
  unfold script, try_except. rewrite bind_run. fold run.
  destruct run as [[e|n] w'] eqn:Hrun.
  - eexists. split; [reflexivity|]. right. exists e. repeat split.
    apply (main_failure_keeps_rows E _ _ w e w' Hn Hrun).
  - eexists. split; [reflexivity|]. left. exists n. split; reflexivity.
Qed.

Lemma script_reports_outcome_witness :
  let E := mkEnv (fun _ => inr ["Foo.epub"])
             (fun _ => inr [mkItem true (inr "Hello world")])
             (fun _ _ => inr Demo.splitter) (fun _ => inr Demo.encoder)
             (fun _ => None) None (fun _ _ => None) in
  exists line,
    script E (fun _ => None) Demo.fresh
    = (inr line, snd (main E "path/to/epubs" (script_db_config (fun _ => None))
                        Demo.fresh)) /\
    ((exists n,
         fst (main E "path/to/epubs" (script_db_config (fun _ => None)) Demo.fresh)
         = inr n /\
         line = ("Successfully processed and stored " ++ Py.str n
                 ++ " chunks in PostgreSQL")%string) \/
     (exists e,
         fst (main E "path/to/epubs" (script_db_config (fun _ => None)) Demo.fresh)
         = inl e /\
         line = ("An error occurred: " ++ exc_msg e)%string /\
         server (snd (main E "path/to/epubs" (script_db_config (fun _ => None))
                        Demo.fresh)) = server Demo.fresh)).
Proof.
  intros E.
  apply (script_reports_outcome E (fun _ => None) Demo.fresh). reflexivity.
Defined.

Example script_prints_count :
  let E := mkEnv (fun _ => inr ["Foo.epub"])
             (fun _ => inr [mkItem true (inr "Hello world")])
             (fun _ _ => inr Demo.splitter) (fun _ => inr Demo.encoder)
             (fun _ => None) None (fun _ _ => None) in
  fst (script E (fun _ => None) Demo.fresh)
  = inr "Successfully processed and stored 2 chunks in PostgreSQL".
Proof. vm_compute. reflexivity. Qed.

Example script_default_config :
  script_db_config (fun _ => None) = Demo.cfg.
Proof. reflexivity. Qed.

(** ** The records of a run *)

Section RunRecords.

Variable E : Env.

Lemma for_epub_files_origin self epub_files :
  forall all_records w records w',
    for_epub_files E self epub_files all_records w = (inr records, w') ->
    forall r, In r records ->
      In r all_records \/
      (chunk_id r = (book_title r ++ "_chunk_" ++ Py.str (chunk_num r))%string /\
       In (book_title r) (titles epub_files)).
Proof.
  induction epub_files as [|f rest IH]; intros acc w records w' Hrun r Hr.
  - injection Hrun as <- _. now left.
  - cbn [for_epub_files] in Hrun. rewrite bind_run in Hrun.
    destruct (extract_text_from_epub E (OsPath.join (input_dir self) f) w)
      as [[e|text] w1]; [discriminate|].
    cbn [titles map]. fold (titles rest).
    destruct (negb (Py.truthy text)).
    + destruct (IH acc w1 records w' Hrun r Hr) as [H|[H1 H2]]; auto.
      right. split; auto. now right.
    + rewrite bind_run in Hrun.
      destruct (embedding_model self (text_splitter self text))
        as [e|embeddings]; [discriminate|].
      cbn [call ret] in Hrun.
      destruct (IH _ w1 records w' Hrun r Hr) as [H|[H1 H2]].
      * apply in_app_or in H. destruct H as [H|H]; [now left|].
        right. destruct (build_records_shape _ _ _ _ H) as [Ht Hs].
        split; [now rewrite Ht|]. left. now rewrite Ht.
      * right. split; auto. now right.
Qed.

Lemma upsert_rows_origin r t row :
  In row (Sql.upsert r t) -> In row t \/ row = r.
Proof.
  unfold Sql.upsert. destruct (Sql.has_key (chunk_id r) t).
  - rewrite in_map_iff. intros [row0 [Heq Hin]].
    destruct (String.eqb_spec (chunk_id row0) (chunk_id r)) as [Hk|Hk].
    + right. rewrite <- Heq. now apply do_update_same.
    + left. now subst.
  - intros H. apply in_app_or in H. destruct H as [H|[H|[]]]; auto.
Qed.

Lemma upsert_all_rows_origin rs :
  forall t row, In row (Sql.upsert_all rs t) -> In row t \/ In row rs.
Proof.
  induction rs as [|r rs IH]; intros t row H; simpl in *; auto.
  destruct (IH _ _ H) as [H1|H1]; auto.
  destruct (upsert_rows_origin _ _ _ H1); auto.
Qed.

End RunRecords.

(** X19.  After a run that returns, every row of the table is either a row
    that was there before the run, unchanged, or a record of a book of the
    listing whose columns agree: its [book_title] is the title of one of
    the [.epub] entries and its [chunk_id] is that title, ["_chunk_"] and
    its [chunk_num]. *)
Theorem stored_rows_are_consistent :
  forall (E : Env) (self : Processor) (w w' : World) (n : nat)
         (entries : list string),
    conn w = Some idle ->
    listdir E (input_dir self) = inr entries ->
    process_directory E self w = (inr n, w') ->
    forall row, In row (server w') ->
      In row (server w) \/
      (chunk_id row
       = (book_title row ++ "_chunk_" ++ Py.str (chunk_num row))%string /\
       In (book_title row)
          (titles (filter (fun f => Py.endswith f ".epub") entries))).
Proof.
  intros E self w w' n entries Hc Hls Hrun row Hrow.
  destruct (process_directory_outcome E self w Hc)
    as [[e0 [l H]]|[entries' [records [l0 [l [Hls' [Hloop H]]]]]]];
    rewrite H in Hrun; [discriminate|].
  injection Hrun as _ <-. cbn [server] in Hrow.
  rewrite Hls in Hls'. injection Hls' as <-.
  destruct (upsert_all_rows_origin _ _ _ Hrow) as [Hold|Hnew]; [now left|].
  destruct (for_epub_files_origin E self _ [] w records _ (Hloop w) row Hnew)
    as [[]|Hshape].
  now right.
Qed.

Lemma stored_rows_are_consistent_witness :
  let E := Demo.env ["Foo.epub"; "notes.txt"] Demo.encoder in
  let w' := snd (process_directory E (Demo.processor Demo.encoder) Demo.ready) in
  let row := mkRecord "Foo_chunk_1" "o world" "Foo" 1 Demo.vec in
  In row (server Demo.ready) \/
  (chunk_id row = (book_title row ++ "_chunk_" ++ Py.str (chunk_num row))%string /\
   In (book_title row)
      (titles (filter (fun f => Py.endswith f ".epub") ["Foo.epub"; "notes.txt"]))).
Proof.
  intros E w' row.
  apply (stored_rows_are_consistent E (Demo.processor Demo.encoder)
           Demo.ready w' 2 ["Foo.epub"; "notes.txt"]).
  - reflexivity.
  - reflexivity.
  - vm_compute. reflexivity.
  - vm_compute. right. left. reflexivity.
Defined.
